(** * Message relay bot: routing, payload and configuration store

    A shallow embedding of [bot.py]: the Firestore helper functions, the
    [on_message] event handler, the commands, their error handler and the
    start of the process, followed by the properties of the routing logic
    and of the commands. *)

From Stdlib Require Import NArith String Ascii DecimalN.
From stdpp Require Import base list gmap.

Local Open Scope N_scope.

(** ** Python strings

    A Python [str] is a sequence of Unicode code points. *)

Module PyStr.

Abbreviation pystr := (list N).

(** An ASCII literal as a [pystr]. *)
Definition py (s : string) : pystr :=
  map N_of_ascii (list_ascii_of_string s).

(** [str(n)] for a non-negative integer. *)
Fixpoint digits (d : Decimal.uint) : pystr :=
  match d with
  | Decimal.Nil => []
  | Decimal.D0 d => 48 :: digits d
  | Decimal.D1 d => 49 :: digits d
  | Decimal.D2 d => 50 :: digits d
  | Decimal.D3 d => 51 :: digits d
  | Decimal.D4 d => 52 :: digits d
  | Decimal.D5 d => 53 :: digits d
  | Decimal.D6 d => 54 :: digits d
  | Decimal.D7 d => 55 :: digits d
  | Decimal.D8 d => 56 :: digits d
  | Decimal.D9 d => 57 :: digits d
  end.

Definition str (n : N) : pystr := digits (N.to_uint n).

(** Truth value of an object that is [None] or a [str]. *)
Definition truthy (o : option pystr) : bool :=
  match o with
  | Some (_ :: _) => true
  | _ => false
  end.

(** [s.startswith(p)]. *)
Fixpoint startswith (p s : pystr) : bool :=
  match p, s with
  | [], _ => true
  | _ :: _, [] => false
  | a :: p', b :: s' => (a =? b) && startswith p' s'
  end.

(** [sub in s]. *)
Fixpoint contains (sub s : pystr) : bool :=
  startswith sub s ||
  match s with
  | [] => false
  | _ :: s' => contains sub s'
  end.

(** [s.replace(old, new)]: every occurrence of [old], found left to right
    and never overlapping an earlier one, is replaced by [new].  The scan
    [replace_from] carries the number of characters of the current match that
    are still to be skipped. *)
Fixpoint replace_from (old new : pystr) (skip : nat) (s : pystr) : pystr :=
  match s with
  | [] => []
  | c :: s' =>
      match skip with
      | S k => replace_from old new k s'
      | O =>
          if startswith old s
          then new ++ replace_from old new (length old - 1) s'
          else c :: replace_from old new 0 s'
      end
  end.

Definition replace (s old new : pystr) : pystr :=
  match old with
  | [] => new ++ flat_map (fun c => c :: new) s
  | _ :: _ => replace_from old new 0 s
  end.

(** [c.isspace()], the characters removed by [str.strip()]. *)
Definition isspace (c : N) : bool :=
  ((9 <=? c) && (c <=? 13)) || ((28 <=? c) && (c <=? 32)) ||
  (c =? 133) || (c =? 160) || (c =? 5760) ||
  ((8192 <=? c) && (c <=? 8202)) || (c =? 8232) || (c =? 8233) ||
  (c =? 8239) || (c =? 8287) || (c =? 12288).

Fixpoint lstrip (s : pystr) : pystr :=
  match s with
  | [] => []
  | c :: s' => if isspace c then lstrip s' else s
  end.

Definition rstrip (s : pystr) : pystr := rev (lstrip (rev s)).

Definition strip (s : pystr) : pystr := rstrip (lstrip s).

(** [sep.join(parts)]. *)
Fixpoint join (sep : pystr) (parts : list pystr) : pystr :=
  match parts with
  | [] => []
  | [p] => p
  | p :: rest => p ++ sep ++ join sep rest
  end.

End PyStr.
Import PyStr.

(** ** The chat platform's objects, as the handler reads them *)

Module Discord.

(** A role carries a permission value; [administrator] is bit 3 of it. *)
Record Role := { role_permissions : N }.

Definition permissions_administrator (r : Role) : bool :=
  N.testbit (role_permissions r) 3.

Record Guild := { guild_id : N; guild_name : pystr }.

Inductive GuildChannelClass :=
  TextChannel | VoiceChannel | StageChannel | Thread.

(** A direct-message channel has an id and nothing else the handler reads:
    no [name] attribute and no guild.  A channel of a server has both.  A
    channel the client could not resolve is a [PartialMessageable]: it has
    no [name], and the guild it belongs to when that guild is known. *)
Inductive Channel :=
| DMChannel (id : N)
| GuildChannel (cls : GuildChannelClass) (id : N) (name : pystr) (guild : Guild)
| PartialMessageable (id : N) (guild : option Guild).

Definition channel_id (c : Channel) : N :=
  match c with
  | DMChannel id => id
  | GuildChannel _ id _ _ => id
  | PartialMessageable id _ => id
  end.

(** [getattr(channel, "name", <absent>)]. *)
Definition channel_name (c : Channel) : option pystr :=
  match c with
  | DMChannel _ => None
  | GuildChannel _ _ name _ => Some name
  | PartialMessageable _ _ => None
  end.

Definition channel_guild (c : Channel) : option Guild :=
  match c with
  | DMChannel _ => None
  | GuildChannel _ _ _ g => Some g
  | PartialMessageable _ g => g
  end.

(** [type(channel).__name__]. *)
Definition channel_type_name (c : Channel) : pystr :=
  match c with
  | DMChannel _ => py "DMChannel"
  | GuildChannel TextChannel _ _ _ => py "TextChannel"
  | GuildChannel VoiceChannel _ _ _ => py "VoiceChannel"
  | GuildChannel StageChannel _ _ _ => py "StageChannel"
  | GuildChannel Thread _ _ _ => py "Thread"
  | PartialMessageable _ _ => py "PartialMessageable"
  end.

(** [isinstance(channel, discord.DMChannel)]. *)
Definition isinstance_DMChannel (c : Channel) : bool :=
  match c with
  | DMChannel _ => true
  | GuildChannel _ _ _ _ => false
  | PartialMessageable _ _ => false
  end.

(** The author of a message: a [User] in a direct message (no [roles]
    attribute), a [Member] in a server.  [author_str] is [str(author)]. *)
Record Author := {
  author_bot : bool;
  author_id : N;
  author_name : pystr;
  author_discriminator : pystr;
  author_str : pystr;
  author_roles : option (list Role)
}.

Record Message := {
  message_id : N;
  message_author : Author;
  message_channel : Channel;
  message_content : pystr;
  message_jump_url : pystr;
  message_created_at_isoformat : pystr;
  message_mentions : list N;
  message_mention_everyone : bool
}.

(** [message.guild] is the guild of the channel the message came through. *)
Definition message_guild (m : Message) : option Guild :=
  channel_guild (message_channel m).

(** [user.mentioned_in(message)]. *)
Definition mentioned_in (user_id : N) (m : Message) : bool :=
  if message_mention_everyone m then true
  else existsb (fun id => id =? user_id) (message_mentions m).

(** A slash-command interaction; its guild is that of its channel. *)
Record Interaction := { interaction_channel : Channel }.

Definition interaction_guild (i : Interaction) : option Guild :=
  channel_guild (interaction_channel i).

End Discord.
Import Discord.

(** ** The document store

    The collection [discord_webhooks]: document id to document, a document
    being a dictionary from field names to strings.  The handle is the one
    [firestore.client()] returns, the synchronous client: a call on it is
    made at once and returns a plain value. *)

Module Firestore.

Abbreviation Document := (gmap pystr pystr).
Abbreviation Collection := (gmap pystr Document).

Inductive Client : Set := client.

(** [collection.where(field, "==", value).get()]. *)
Definition where_eq (field value : pystr) (c : Collection) : list Document :=
  filter (fun d : Document => d !! field = Some value) (map_to_list c).*2.

End Firestore.
Import Firestore.

(** ** The webhook payload *)

Record PayloadUser := {
  user_id : pystr;
  user_username : pystr;
  user_discriminator : pystr;
  user_tag : pystr
}.

Record PayloadChannel := {
  pchannel_id : pystr;
  pchannel_name : pystr;
  pchannel_type : pystr
}.

Record PayloadGuild := {
  pguild_id : option pystr;
  pguild_name : option pystr
}.

Record Payload := {
  payload_user : PayloadUser;
  payload_content : pystr;
  payload_original_content : pystr;
  payload_channel : PayloadChannel;
  payload_guild : PayloadGuild;
  payload_message_id : pystr;
  payload_message_link : option pystr;
  payload_timestamp : pystr;
  payload_source : pystr;
  payload_is_admin : bool
}.

(** ** Effects

    What a handler does to the outside world, in order. *)

Inductive LogRecord :=
| info_processing (author place content : pystr)
| warning_no_webhook_url (channel_name : pystr)
| info_sending_payload (p : Payload)
| info_response_status (status_code : N)
| error_send_failed (e : pystr)
| info_webhook_removed (channel_name : pystr) (channel guild : N) (guild_name : pystr).

Inductive Event :=
| logged (r : LogRecord)
| firestore_get (key : pystr)
| firestore_set (key : pystr) (d : Document)
| firestore_delete (key : pystr)
| firestore_where (field value : pystr)
| requests_post_call (url : pystr) (json : Payload)
| channel_send (channel : N) (text : pystr)
| process_commands (message : N)
| interaction_send_message (text : pystr) (ephemeral : bool).

(** The answer of [requests.post]: a response, whatever its status, or a
    [requests.exceptions.RequestException]. *)
Inductive PostResult :=
| Response (status_code : N)
| RequestException (e : pystr).

Inductive Exn :=
| AttributeError (type_name attr : pystr)
| TypeError.

Inductive Outcome (A : Type) :=
| Returned (a : A)
| Raised (e : Exn).
Arguments Returned {A} a.
Arguments Raised {A} e.

(** The result of running a handler from a given content of the collection. *)
Record Run (A : Type) := {
  final : Collection;
  trace : list Event;
  outcome : Outcome A
}.
Arguments final {A} r.
Arguments trace {A} r.
Arguments outcome {A} r.

Definition M (A : Type) : Type := Collection -> Run A.

Definition ret {A} (a : A) : M A :=
  fun s => {| final := s; trace := []; outcome := Returned a |}.

Definition raise {A} (e : Exn) : M A :=
  fun s => {| final := s; trace := []; outcome := Raised e |}.

Definition bind {A B} (m : M A) (k : A -> M B) : M B :=
  fun s =>
    let r := m s in
    match outcome r with
    | Returned a =>
        let r' := k a (final r) in
        {| final := final r'; trace := trace r ++ trace r'; outcome := outcome r' |}
    | Raised e =>
        {| final := final r; trace := trace r; outcome := Raised e |}
    end.

Notation "'do' x <- m ; k" := (bind m (fun x => k))
  (at level 10, x name, m at level 100, k at level 200).

(** [await value] for the plain value a call on the synchronous client has
    returned: the call has been made, and the value cannot be awaited. *)
Definition await {A} (value : A) : M A := raise TypeError.

Definition emit (e : Event) : M unit :=
  fun s => {| final := s; trace := [e]; outcome := Returned tt |}.

Definition read_collection : M Collection :=
  fun s => {| final := s; trace := []; outcome := Returned s |}.

Definition write_collection (s' : Collection) : M unit :=
  fun _ => {| final := s'; trace := []; outcome := Returned tt |}.

(** The events of a trace that are webhook POSTs. *)
Definition posts (t : list Event) : list (pystr * Payload) :=
  omap (fun e => match e with
                 | requests_post_call url p => Some (url, p)
                 | _ => None
                 end) t.

(** The texts sent to the chat channel. *)
Definition chat_messages (t : list Event) : list pystr :=
  omap (fun e => match e with
                 | channel_send _ text => Some text
                 | _ => None
                 end) t.

(** The documents deleted from the store. *)
Definition deletes (t : list Event) : list pystr :=
  omap (fun e => match e with
                 | firestore_delete key => Some key
                 | _ => None
                 end) t.

Section Bot.

(** The process configuration and the outside world: the bot's own user id,
    the global webhook URL read from the environment (absent when unset),
    the store handle (absent when the store could not be initialised) and the
    network's answer to a POST. *)
Variable bot_user_id : N.
Variable WEBHOOK_URL : option pystr.
Variable db : option Client.
Variable requests_post : pystr -> Payload -> PostResult.

(** *** Firestore helper functions *)

(** The document reference is the document id [f"{guild_id}-{channel_id}"]. *)
Definition get_channel_webhook_ref (guild channel : N) : option pystr :=
  match db with
  | Some _ => Some (str guild ++ py "-" ++ str channel)
  | None => None
  end.

Definition set_channel_webhook (guild channel : N) (webhook_url : pystr) : M bool :=
  match get_channel_webhook_ref guild channel with
  | Some ref =>
      let d : Document :=
        <[py "webhook_url" := webhook_url]>
          (<[py "guild_id" := str guild]>
             (<[py "channel_id" := str channel]> ∅)) in
      do _ <- emit (firestore_set ref d);
      do s <- read_collection;
      do _ <- write_collection (<[ref := d]> s);
      do _ <- await tt;
      ret true
  | None => ret false
  end.

Definition get_channel_webhook (guild channel : N) : M (option pystr) :=
  match get_channel_webhook_ref guild channel with
  | Some ref =>
      do _ <- emit (firestore_get ref);
      do s <- read_collection;
      do doc <- await (s !! ref);
      match doc with
      | Some doc => ret (doc !! py "webhook_url")
      | None => ret None
      end
  | None => ret None
  end.

Definition delete_channel_webhook (guild channel : N) : M bool :=
  match get_channel_webhook_ref guild channel with
  | Some ref =>
      do _ <- emit (firestore_delete ref);
      do s <- read_collection;
      do _ <- write_collection (delete ref s);
      do _ <- await tt;
      ret true
  | None => ret false
  end.

Definition get_all_guild_webhooks (guild : N) : M (list Document) :=
  match db with
  | Some _ =>
      do _ <- emit (firestore_where (py "guild_id") (str guild));
      do s <- read_collection;
      do docs <- await (where_eq (py "guild_id") (str guild) s);
      ret docs
  | None => ret []
  end.

(** *** The message handler *)

(** [channel.name], an [AttributeError] where the channel has no name. *)
Definition attr_name (c : Channel) : M pystr :=
  match channel_name c with
  | Some name => ret name
  | None => raise (AttributeError (channel_type_name c) (py "name"))
  end.

Definition mention_text : pystr := py "<@" ++ str bot_user_id ++ py ">".

Definition build_payload (message : Message) (is_dm is_mention : bool)
    (clean_content : pystr) : Payload :=
  {| payload_user :=
       {| user_id := str (author_id (message_author message));
          user_username := author_name (message_author message);
          user_discriminator := author_discriminator (message_author message);
          user_tag := author_str (message_author message) |};
     payload_content := clean_content;
     payload_original_content := message_content message;
     payload_channel :=
       {| pchannel_id := str (channel_id (message_channel message));
          pchannel_name := default (py "DM") (channel_name (message_channel message));
          pchannel_type := channel_type_name (message_channel message) |};
     payload_guild :=
       {| pguild_id := (fun g => str (guild_id g)) <$> message_guild message;
          pguild_name := guild_name <$> message_guild message |};
     payload_message_id := str (message_id message);
     payload_message_link :=
       match message_guild message with
       | Some _ => Some (message_jump_url message)
       | None => None
       end;
     payload_timestamp := message_created_at_isoformat message;
     payload_source :=
       if is_mention then py "mention"
       else if is_dm then py "dm" else py "channel_webhook_trigger";
     payload_is_admin :=
       match message_guild message with
       | Some _ =>
           existsb permissions_administrator
             (default [] (author_roles (message_author message)))
       | None => false
       end |}.

Definition on_message (message : Message) : M unit :=
  if author_bot (message_author message) then ret tt
  else
    let is_dm := isinstance_DMChannel (message_channel message) in
    let is_mention := mentioned_in bot_user_id message in
    do channel_webhook_url <-
      match message_guild message with
      | Some g => get_channel_webhook (guild_id g) (channel_id (message_channel message))
      | None => ret None
      end;
    if negb (is_dm || is_mention || truthy channel_webhook_url) then
      emit (process_commands (message_id message))
    else
      do place <-
        match message_guild message with
        | Some _ => attr_name (message_channel message)
        | None => ret (py "DM")
        end;
      do _ <- emit (logged (info_processing (author_str (message_author message))
                              place (message_content message)));
      let clean_content := strip (replace (message_content message) mention_text []) in
      let target_webhook_url :=
        if truthy channel_webhook_url then channel_webhook_url else WEBHOOK_URL in
      if negb (truthy target_webhook_url) then
        do name <- attr_name (message_channel message);
        do _ <- emit (logged (warning_no_webhook_url name));
        do _ <- emit (channel_send (channel_id (message_channel message))
                        (py "Error: No webhook URL configured for this channel or globally. Please use `/setup`."));
        emit (process_commands (message_id message))
      else
        let url := default [] target_webhook_url in
        let payload := build_payload message is_dm is_mention clean_content in
        do _ <- emit (logged (info_sending_payload payload));
        do _ <- emit (requests_post_call url payload);
        do _ <-
          match requests_post url payload with
          | Response status_code =>
              emit (logged (info_response_status status_code))
          | RequestException e =>
              do _ <- emit (logged (error_send_failed e));
              emit (channel_send (channel_id (message_channel message))
                      (py "Error sending message to webhook: " ++ e))
          end;
        emit (process_commands (message_id message)).

(** *** The [/remove] command *)

Definition remove (interaction : Interaction) : M unit :=
  match db with
  | None =>
      emit (interaction_send_message
              (py "Database not initialized. Cannot remove webhook.") true)
  | Some _ =>
      match interaction_guild interaction with
      | None =>
          emit (interaction_send_message
                  (py "This command can only be used in a server channel.") true)
      | Some guild =>
          let channel := interaction_channel interaction in
          do existing_webhook <- get_channel_webhook (guild_id guild) (channel_id channel);
          if negb (truthy existing_webhook) then
            emit (interaction_send_message
                    (py "No n8n webhook is set up for this channel.") true)
          else
            do success <- delete_channel_webhook (guild_id guild) (channel_id channel);
            if success then
              do name <- attr_name channel;
              do _ <- emit (interaction_send_message
                        (py "Successfully removed n8n webhook from this channel (`" ++ name
                         ++ py "`). Messages will no longer be forwarded to n8n from here.")
                        false);
              emit (logged (info_webhook_removed name (channel_id channel)
                              (guild_id guild) (guild_name guild)))
            else
              emit (interaction_send_message
                      (py "Failed to remove webhook. Please check bot permissions or database connection.")
                      true)
      end
  end.

End Bot.

(** ** A deployment used in the examples

    The bot has user id 42; server 1 has a text channel 2. *)

Module Scenario.

Definition bot_id : N := 42.
Definition global_url : pystr := py "https://x/global".
Definition h1_url : pystr := py "https://x/h1".

Definition alice : Author :=
  {| author_bot := false; author_id := 7; author_name := py "alice";
     author_discriminator := py "0"; author_str := py "alice";
     author_roles := None |}.

Definition alice_member : Author :=
  {| author_bot := false; author_id := 7; author_name := py "alice";
     author_discriminator := py "0"; author_str := py "alice";
     author_roles := Some [ {| role_permissions := 8 |} ] |}.

Definition other_bot : Author :=
  {| author_bot := true; author_id := 9; author_name := py "relay";
     author_discriminator := py "0001"; author_str := py "relay#0001";
     author_roles := None |}.

Definition home : Guild := {| guild_id := 1; guild_name := py "home" |}.

Definition general : Channel := GuildChannel TextChannel 2 (py "general") home.

Definition dm_message (author : Author) (text : string) (mentions : list N) : Message :=
  {| message_id := 100; message_author := author;
     message_channel := DMChannel 55; message_content := py text;
     message_jump_url := py "https://discord.com/channels/@me/55/100";
     message_created_at_isoformat := py "2024-01-01T00:00:00+00:00";
     message_mentions := mentions; message_mention_everyone := false |}.

Definition server_message (author : Author) (text : string) (mentions : list N) : Message :=
  {| message_id := 101; message_author := author;
     message_channel := general; message_content := py text;
     message_jump_url := py "https://discord.com/channels/1/2/101";
     message_created_at_isoformat := py "2024-01-01T00:00:00+00:00";
     message_mentions := mentions; message_mention_everyone := false |}.

(** A network that answers every POST with the given status, and one that
    cannot be reached. *)
Definition answers (status_code : N) : pystr -> Payload -> PostResult :=
  fun _ _ => Response status_code.

Definition unreachable : pystr -> Payload -> PostResult :=
  fun _ _ => RequestException (py "connection refused").

(** A document stored for channel 2 of server 1, and a document whose id
    names server 1 while its [guild_id] field names server 7. *)
Definition h1_doc : Document :=
  <[py "webhook_url" := h1_url]>
    (<[py "guild_id" := py "1"]> (<[py "channel_id" := py "2"]> ∅)).

Definition stray_doc : Document :=
  <[py "webhook_url" := global_url]>
    (<[py "guild_id" := py "7"]> (<[py "channel_id" := py "3"]> ∅)).

Definition configured_store : Collection := <[py "1-2" := h1_doc]> ∅.

Definition mixed_store : Collection :=
  <[py "1-3" := stray_doc]> configured_store.

(** The payload of the direct message [<@42> hello]. *)
Definition hello_payload : Payload :=
  build_payload (dm_message alice "<@42> hello" [42]) true true (py "hello").

End Scenario.

(** ** The other commands and the start of the process *)

(** Events of a trace by kind. *)
Definition replies (t : list Event) : list (pystr * bool) :=
  omap (fun e => match e with
                 | interaction_send_message text ephemeral => Some (text, ephemeral)
                 | _ => None
                 end) t.

Definition store_writes (t : list Event) : list pystr :=
  omap (fun e => match e with
                 | firestore_set key _ => Some key
                 | firestore_delete key => Some key
                 | _ => None
                 end) t.

Definition commands_processed (t : list Event) : list N :=
  omap (fun e => match e with
                 | process_commands message => Some message
                 | _ => None
                 end) t.

(** A store as the helper functions leave it: every document sits under the
    id made of the two ids it carries in its fields. *)
Definition well_keyed (st : Collection) : Prop :=
  forall (key : pystr) (doc : Document),
    st !! key = Some doc ->
    exists guild channel : N,
      key = str guild ++ py "-" ++ str channel /\
      doc !! py "guild_id" = Some (str guild) /\
      doc !! py "channel_id" = Some (str channel).

(** [str(n)] for an integer of either sign. *)
Definition str_int (z : Z) : pystr :=
  if (z <? 0)%Z then py "-" ++ str (Z.to_N (- z)) else str (Z.to_N z).

(** What the commands log and raise beyond the message handler. *)
Inductive CommandLog :=
| info_webhook_setup (channel_name : pystr) (channel : N) (guild_name : pystr) (guild : N)
| error_command_execution (error : pystr).

Inductive CommandEvent :=
| core (e : Event)
| command_logged (r : CommandLog).

Inductive CommandExn :=
| core_exn (e : Exn)
| ValueError.

Inductive CommandOutcome (A : Type) :=
| Done (a : A)
| Failed (e : CommandExn).
Arguments Done {A} a.
Arguments Failed {A} e.

Record CommandRun (A : Type) := {
  cfinal : Collection;
  ctrace : list CommandEvent;
  coutcome : CommandOutcome A
}.
Arguments cfinal {A} c.
Arguments ctrace {A} c.
Arguments coutcome {A} c.

Definition Cmd (A : Type) : Type := Collection -> CommandRun A.

Definition cmd_ret {A} (a : A) : Cmd A :=
  fun s => {| cfinal := s; ctrace := []; coutcome := Done a |}.

Definition cmd_raise {A} (e : CommandExn) : Cmd A :=
  fun s => {| cfinal := s; ctrace := []; coutcome := Failed e |}.

Definition cmd_bind {A B} (m : Cmd A) (k : A -> Cmd B) : Cmd B :=
  fun s =>
    let r := m s in
    match coutcome r with
    | Done a =>
        let r' := k a (cfinal r) in
        {| cfinal := cfinal r'; ctrace := ctrace r ++ ctrace r'; coutcome := coutcome r' |}
    | Failed e =>
        {| cfinal := cfinal r; ctrace := ctrace r; coutcome := Failed e |}
    end.

Notation "'cdo' x <- m ; k" := (cmd_bind m (fun x => k))
  (at level 10, x name, m at level 100, k at level 200).

(** A computation of the handler's monad, run inside a command. *)
Definition lift {A} (m : M A) : Cmd A :=
  fun s =>
    let r := m s in
    {| cfinal := final r;
       ctrace := core <$> trace r;
       coutcome := match outcome r with
                   | Returned a => Done a
                   | Raised e => Failed (core_exn e)
                   end |}.

Definition cmd_log (r : CommandLog) : Cmd unit :=
  fun s => {| cfinal := s; ctrace := [command_logged r]; coutcome := Done tt |}.

Definition send_message (text : pystr) (ephemeral : bool) : Cmd unit :=
  lift (emit (interaction_send_message text ephemeral)).

Definition core_events (t : list CommandEvent) : list Event :=
  omap (fun e => match e with
                 | core e => Some e
                 | command_logged _ => None
                 end) t.

(** The error an application command ends with. *)
Inductive CommandError :=
| MissingPermissions (missing_permissions : list pystr)
| OtherError (text : pystr).

Section Commands.

Variable WEBHOOK_URL : option pystr.
Variable db : option Client.

(** [int(s)] on a string, absent where it raises [ValueError], and
    [guild.get_channel(id)], giving the name of the channel it finds. *)
Variable py_int : pystr -> option Z.
Variable guild_get_channel : Guild -> Z -> option pystr.

(** *** The [/setup] command *)

Definition setup (interaction : Interaction) : Cmd unit :=
  match db with
  | None =>
      send_message (py "Database not initialized. Cannot set up webhook.") true
  | Some _ =>
      match interaction_guild interaction with
      | None =>
          send_message (py "This command can only be used in a server channel.") true
      | Some guild =>
          if negb (truthy WEBHOOK_URL) then
            send_message
              (py "Error: Global WEBHOOK_URL is not configured. Please set it in environment variables.")
              true
          else
            let channel := interaction_channel interaction in
            cdo success <- lift (set_channel_webhook db (guild_id guild) (channel_id channel)
                                   (default [] WEBHOOK_URL));
            if success then
              cdo name <- lift (attr_name channel);
              cdo _ <- send_message
                        (py "Successfully set up n8n webhook for this channel (`" ++ name
                         ++ py "`). Messages sent here will now be forwarded to n8n.")
                        false;
              cmd_log (info_webhook_setup name (channel_id channel)
                         (guild_name guild) (guild_id guild))
            else
              send_message
                (py "Failed to set up webhook. Please check bot permissions or database connection.")
                true
      end
  end.

(** *** The [/list] command *)

(** The loop over the documents, adding one line to the message for each. *)
Fixpoint list_lines (guild : Guild) (webhooks : list Document)
    (response_message : pystr) : Cmd pystr :=
  match webhooks with
  | [] => cmd_ret response_message
  | webhook_data :: rest =>
      match webhook_data !! py "channel_id" with
      | None => cmd_raise (core_exn TypeError)
      | Some text =>
          match py_int text with
          | None => cmd_raise ValueError
          | Some channel_id =>
              let channel_name :=
                match guild_get_channel guild channel_id with
                | Some name => name
                | None => py "Unknown Channel (" ++ str_int channel_id ++ py ")"
                end in
              list_lines guild rest
                (response_message ++ py "- **#" ++ channel_name ++ py "**: `"
                 ++ default (py "N/A") (webhook_data !! py "webhook_url")
                 ++ py "`" ++ [10])
          end
      end
  end.

Definition list_webhooks (interaction : Interaction) : Cmd unit :=
  match db with
  | None =>
      send_message (py "Database not initialized. Cannot list webhooks.") true
  | Some _ =>
      match interaction_guild interaction with
      | None =>
          send_message (py "This command can only be used in a server.") true
      | Some guild =>
          cdo webhooks <- lift (get_all_guild_webhooks db (guild_id guild));
          match webhooks with
          | [] =>
              send_message (py "No n8n webhooks are set up in this server.") true
          | _ :: _ =>
              cdo response_message <-
                list_lines guild webhooks
                  (py "N8N Webhooks configured in this server:" ++ [10]);
              send_message response_message true
          end
      end
  end.

(** *** The [/status] command *)

Definition status (interaction : Interaction) : M unit :=
  match db with
  | None =>
      emit (interaction_send_message
              (py "Database not initialized. Cannot check status.") true)
  | Some _ =>
      match interaction_guild interaction with
      | None =>
          emit (interaction_send_message
                  (py "This command can only be used in a server channel.") true)
      | Some guild =>
          let channel := interaction_channel interaction in
          do webhook_url <- get_channel_webhook db (guild_id guild) (channel_id channel);
          if truthy webhook_url then
            do name <- attr_name channel;
            emit (interaction_send_message
                    (py "N8N webhook is **ACTIVE** for this channel (`#" ++ name
                     ++ py "`). Messages are forwarded to: `" ++ default [] webhook_url
                     ++ py "`")
                    true)
          else
            do name <- attr_name channel;
            emit (interaction_send_message
                    (py "N8N webhook is **INACTIVE** for this channel (`#" ++ name
                     ++ py "`). Use `/setup` to configure it.")
                    true)
      end
  end.

(** *** The error handler of the application commands *)

Definition on_app_command_error (error : CommandError) : Cmd unit :=
  match error with
  | MissingPermissions missing_permissions =>
      send_message
        (py "You don't have the required permissions to use this command. You need: "
         ++ join (py " ") missing_permissions)
        true
  | OtherError text =>
      cdo _ <- cmd_log (error_command_execution text);
      send_message
        (py "An unexpected error occurred while executing this command. Please try again later.")
        true
  end.

End Commands.

(** *** Start of the process *)

Inductive StartupLog :=
| info_firestore_initialized
| error_firebase_failed (e : pystr)
| warning_firebase_key_not_set
| error_token_not_set
| warning_webhook_url_not_set
| error_firebase_key_not_set.

(** How the process goes on after the start: it leaves with an exit code, or
    the bot runs with a token and a store handle. *)
Inductive Startup :=
| exit (code : N)
| bot_run (token : pystr) (db : option Client).

Section Start.

Variable DISCORD_TOKEN : option pystr.
Variable WEBHOOK_URL : option pystr.
Variable FIREBASE_SERVICE_ACCOUNT_KEY : option pystr.

(** Decoding the key and opening the store: a client, or the exception. *)
Variable firebase_initialize : pystr -> Client + pystr.

(** The module-level set-up of [db]. *)
Definition firestore_setup : list StartupLog * option Client :=
  if truthy FIREBASE_SERVICE_ACCOUNT_KEY then
    match firebase_initialize (default [] FIREBASE_SERVICE_ACCOUNT_KEY) with
    | inl c => ([info_firestore_initialized], Some c)
    | inr e => ([error_firebase_failed e], None)
    end
  else ([warning_firebase_key_not_set], None).

(** The module body followed by the [__main__] block. *)
Definition main : list StartupLog * Startup :=
  let '(logs, db) := firestore_setup in
  if negb (truthy DISCORD_TOKEN) then
    (logs ++ [error_token_not_set], exit 1)
  else
    let logs :=
      if negb (truthy WEBHOOK_URL) then logs ++ [warning_webhook_url_not_set]
      else logs in
    if negb (truthy FIREBASE_SERVICE_ACCOUNT_KEY) then
      (logs ++ [error_firebase_key_not_set], exit 1)
    else (logs, bot_run (default [] DISCORD_TOKEN) db).

End Start.

(** ** More of the example deployment *)

Module Cases.

Import Scenario.

Definition in_general : Interaction := {| interaction_channel := general |}.

Definition in_dm : Interaction := {| interaction_channel := DMChannel 55 |}.

(** The document [/setup] stores for channel 2 of server 1. *)
Definition setup_doc : Document :=
  <[py "webhook_url" := global_url]>
    (<[py "guild_id" := py "1"]> (<[py "channel_id" := py "2"]> ∅)).

Definition after_setup : Collection := <[py "1-2" := setup_doc]> ∅.

End Cases.
(** * Properties *)

(** ** Python string operations *)

Section PyStrFacts.

Implicit Types (s p old new sub : pystr) (c h : N).

Lemma startswith_app p r : startswith p (p ++ r) = true.
Proof.
  induction p as [|a p IH]; simpl; [done|].
  by rewrite N.eqb_refl.
Qed.

Lemma startswith_inv p s : startswith p s = true -> exists r, s = p ++ r.
Proof.
  revert s. induction p as [|a p IH]; intros s H.
  - by exists s.
  - destruct s as [|b s]; simpl in H; [discriminate|].
    apply andb_true_iff in H as [Hab Hps].
    apply N.eqb_eq in Hab as ->.
    destruct (IH _ Hps) as [r ->]. by exists r.
Qed.

Lemma startswith_iff p s : startswith p s = true <-> exists r, s = p ++ r.
Proof.
  split; [apply startswith_inv|].
  intros [r ->]. apply startswith_app.
Qed.

Lemma contains_iff sub s :
  contains sub s = true <-> exists a b, s = a ++ sub ++ b.
Proof.
  induction s as [|c s IH].
  - simpl. rewrite orb_false_r, startswith_iff. split.
    + intros [r Hr]. by exists [], r.
    + intros [a [b Hab]]. symmetry in Hab.
      apply app_eq_nil in Hab as [-> Hab]. by exists b.
  - simpl. rewrite orb_true_iff, startswith_iff, IH. split.
    + intros [[r Hr]|[a [b Hab]]].
      * by exists [], r.
      * exists (c :: a), b. by rewrite Hab.
    + intros [[|a0 a] [b Hab]].
      * left. by exists b.
      * right. exists a, b. simpl in Hab. congruence.
Qed.

Lemma contains_cons_false sub c s :
  contains sub (c :: s) = false ->
  startswith sub (c :: s) = false /\ contains sub s = false.
Proof. simpl. intros H. by apply orb_false_iff in H. Qed.

(** Skipping the rest of a match. *)
Lemma replace_from_skip old new a s :
  replace_from old new (length a) (a ++ s) = replace_from old new 0 s.
Proof. induction a as [|c a IH]; [done|]. simpl. exact IH. Qed.

Lemma replace_from_match old new h t r :
  old = h :: t ->
  replace_from old new 0 (old ++ r) = new ++ replace_from old new 0 r.
Proof.
  intros ->. change ((h :: t) ++ r) with (h :: (t ++ r)).
  cbn [replace_from].
  change (h :: t ++ r) with ((h :: t) ++ r). rewrite startswith_app.
  replace (length (h :: t) - 1)%nat with (length t) by (simpl; lia).
  by rewrite replace_from_skip.
Qed.

Lemma replace_from_no_match old new c s :
  startswith old (c :: s) = false ->
  replace_from old new 0 (c :: s) = c :: replace_from old new 0 s.
Proof. intros H. cbn [replace_from]. by rewrite H. Qed.

Lemma replace_from_absent old new s :
  contains old s = false -> replace_from old new 0 s = s.
Proof.
  induction s as [|c s IH]; intros H; [done|].
  apply contains_cons_false in H as [H1 H2].
  rewrite replace_from_no_match by done. by rewrite IH.
Qed.

(** An [old] whose first character does not occur again in it cannot start
    in the text before an occurrence and run into that occurrence. *)
Lemma startswith_before_head h t q x :
  h ∉ t -> startswith t (q ++ h :: x) = true -> startswith t q = true.
Proof.
  revert t. induction q as [|c q IH]; intros t Hh H.
  - destruct t as [|a t]; [done|]. simpl in H.
    apply andb_true_iff in H as [Ha _]. apply N.eqb_eq in Ha as ->.
    exfalso. apply Hh. by left.
  - destruct t as [|a t]; [done|]. simpl in H |- *.
    apply andb_true_iff in H as [Ha H]. rewrite Ha. simpl.
    apply IH; [|done]. intros Hin. apply Hh. by right.
Qed.

Lemma replace_from_before old new h t q r :
  old = h :: t -> h ∉ t ->
  contains old q = false ->
  replace_from old new 0 (q ++ old ++ r) = q ++ new ++ replace_from old new 0 r.
Proof.
  intros Hold Hh. induction q as [|c q IH]; intros Hq.
  - simpl. by apply (replace_from_match old new h t).
  - apply contains_cons_false in Hq as [H1 H2].
    change ((c :: q) ++ old ++ r) with (c :: (q ++ old ++ r)).
    rewrite replace_from_no_match.
    + rewrite IH by done. done.
    + destruct (startswith old (c :: q ++ old ++ r)) eqn:E; [|done].
      rewrite <- H1. subst old. simpl in E |- *.
      apply andb_true_iff in E as [E1 E2]. rewrite E1. simpl.
      symmetry. by apply (startswith_before_head h t q (t ++ r)).
Qed.

(** [replace] of a text cut at the occurrences of [old]: the pieces are kept
    and every separating occurrence becomes [new]. *)
Lemma replace_join old new h t parts :
  old = h :: t -> h ∉ t ->
  Forall (fun p => contains old p = false) parts ->
  replace (join old parts) old new = join new parts.
Proof.
  intros Hold Hh Hparts. unfold replace.
  destruct old as [|h' t'] eqn:E; [discriminate|]. rewrite <- E in *. clear E h' t'.
  induction Hparts as [|p rest Hp Hrest IH]; [done|].
  destruct rest as [|p' rest].
  - simpl. by apply replace_from_absent.
  - change (join old (p :: p' :: rest)) with (p ++ old ++ join old (p' :: rest)).
    change (join new (p :: p' :: rest)) with (p ++ new ++ join new (p' :: rest)).
    rewrite (replace_from_before old new h t) by done. by rewrite IH.
Qed.

(** The first occurrence of [old] in a text that contains it. *)
Lemma first_occurrence old s :
  old <> [] -> contains old s = true ->
  exists a b, s = a ++ old ++ b /\ contains old a = false.
Proof.
  intros Hold. induction s as [|c s IH]; intros H.
  - simpl in H. rewrite orb_false_r in H.
    destruct old; [done|discriminate].
  - destruct (startswith old (c :: s)) eqn:E.
    + apply startswith_inv in E as [b Hb]. exists [], b. split; [done|].
      simpl. destruct old; [done|reflexivity].
    + assert (Hs : contains old s = true).
      { destruct old as [|h t]; [done|]. simpl in E, H. rewrite E in H. exact H. }
      destruct (IH Hs) as (a & b & -> & Ha).
      exists (c :: a), b. split; [done|].
      change (contains old (c :: a))
        with (startswith old (c :: a) || contains old a).
      rewrite Ha, orb_false_r.
      destruct (startswith old (c :: a)) eqn:E'; [|done].
      apply startswith_inv in E' as [r Hr].
      rewrite <- E. change (c :: a ++ old ++ b) with ((c :: a) ++ old ++ b).
      rewrite Hr, <- app_assoc. symmetry. apply startswith_app.
Qed.

(** Every text can be cut at occurrences of [old] into pieces that do not
    contain it. *)
Lemma cut_at_occurrences old s :
  old <> [] ->
  exists parts,
    s = join old parts /\ Forall (fun p => contains old p = false) parts.
Proof.
  intros Hold. remember (length s) as n eqn:Hn. revert s Hn.
  induction n as [n IH] using lt_wf_ind; intros s ->.
  destruct (contains old s) eqn:E.
  - destruct (first_occurrence old s Hold E) as (a & b & -> & Ha).
    destruct (IH (length b)) with (s := b) as (parts & Hb & Hparts); [|done|].
    { rewrite !length_app. destruct old; [done|]. simpl. lia. }
    destruct parts as [|p rest].
    + exists [a; []]. simpl in Hb. subst b. split; [done|].
      repeat constructor; [done|]. destruct old; [done|reflexivity].
    + exists (a :: p :: rest). split.
      * change (join old (a :: p :: rest)) with (a ++ old ++ join old (p :: rest)).
        by rewrite <- Hb.
      * by constructor.
  - exists [s]. split; [done|]. by repeat constructor.
Qed.

Lemma join_empty parts : join [] parts = concat parts.
Proof.
  induction parts as [|p rest IH]; [done|].
  destruct rest as [|p' rest]; simpl in *.
  - by rewrite app_nil_r.
  - by rewrite IH.
Qed.

(** [strip] removes a run of whitespace at each end and nothing else, and
    what is left neither starts nor ends with whitespace. *)
Lemma lstrip_spec s :
  exists l, s = l ++ lstrip s /\ forallb isspace l = true /\
            match lstrip s with [] => True | c :: _ => isspace c = false end.
Proof.
  induction s as [|c s (l & Hs & Hl & Hhd)]; [by exists []|].
  simpl. destruct (isspace c) eqn:E.
  - exists (c :: l). simpl. rewrite E, Hl. split; [congruence|done].
  - exists []. by rewrite E.
Qed.

Lemma strip_spec s :
  exists l r, s = l ++ strip s ++ r /\
    forallb isspace l = true /\ forallb isspace r = true /\
    match strip s with [] => True | c :: _ => isspace c = false end /\
    match rev (strip s) with [] => True | c :: _ => isspace c = false end.
Proof.
  destruct (lstrip_spec s) as (l & Hs & Hl & Hhd).
  destruct (lstrip_spec (rev (lstrip s))) as (r & Hr & Hrs & Hlast).
  exists l, (rev r). unfold strip, rstrip.
  assert (Hmid : lstrip s = rev (lstrip (rev (lstrip s))) ++ rev r).
  { rewrite <- rev_app_distr, <- Hr. by rewrite rev_involutive. }
  repeat split.
  - by rewrite <- Hmid.
  - done.
  - rewrite forallb_forall in Hrs |- *. intros x Hx. apply Hrs. by apply in_rev.
  - destruct (rev (lstrip (rev (lstrip s)))) as [|c m] eqn:E; [done|].
    rewrite Hmid in Hhd. exact Hhd.
  - by rewrite rev_involutive.
Qed.

End PyStrFacts.

(** ** The mention token *)

Lemma digits_no_lt d : 60 ∉ digits d.
Proof.
  induction d; simpl; [apply not_elem_of_nil|..];
    (apply not_elem_of_cons; split; [discriminate|done]).
Qed.

(** The token starts with [<], which does not occur again in it: two
    occurrences of the token never overlap. *)
Lemma mention_text_head bot_user_id :
  exists t, mention_text bot_user_id = 60 :: t /\ 60 ∉ t.
Proof.
  exists (64 :: str bot_user_id ++ [62]). split; [done|].
  rewrite elem_of_cons, elem_of_app, list_elem_of_singleton.
  intros [H|[H|H]]; try discriminate. by apply digits_no_lt in H.
Qed.

Lemma clean_content_join bot_user_id parts :
  Forall (fun p => contains (mention_text bot_user_id) p = false) parts ->
  replace (join (mention_text bot_user_id) parts) (mention_text bot_user_id) []
  = concat parts.
Proof.
  intros H. destruct (mention_text_head bot_user_id) as (t & Ht & Hh).
  rewrite (replace_join _ [] 60 t) by done. apply join_empty.
Qed.

Lemma content_cut_at_mentions bot_user_id s :
  exists parts,
    s = join (mention_text bot_user_id) parts /\
    Forall (fun p => contains (mention_text bot_user_id) p = false) parts.
Proof.
  apply cut_at_occurrences.
  destruct (mention_text_head bot_user_id) as (t & -> & _). done.
Qed.

(** ** The configuration store *)

Section StoreFacts.

Context (c : Client).

(** With a handle, every helper makes its call on the store and then fails
    to await what the call returned. *)
Lemma get_channel_webhook_initialised (guild channel : N) (st : Collection) :
  get_channel_webhook (Some c) guild channel st =
  {| final := st;
     trace := [firestore_get (str guild ++ py "-" ++ str channel)];
     outcome := Raised TypeError |}.
Proof. reflexivity. Qed.

Lemma set_channel_webhook_initialised (guild channel : N) (url : pystr)
    (st : Collection) :
  set_channel_webhook (Some c) guild channel url st =
  {| final :=
       <[str guild ++ py "-" ++ str channel :=
           <[py "webhook_url" := url]>
             (<[py "guild_id" := str guild]>
                (<[py "channel_id" := str channel]> ∅))]> st;
     trace :=
       [firestore_set (str guild ++ py "-" ++ str channel)
          (<[py "webhook_url" := url]>
             (<[py "guild_id" := str guild]>
                (<[py "channel_id" := str channel]> ∅)))];
     outcome := Raised TypeError |}.
Proof. reflexivity. Qed.

Lemma delete_channel_webhook_initialised (guild channel : N) (st : Collection) :
  delete_channel_webhook (Some c) guild channel st =
  {| final := delete (str guild ++ py "-" ++ str channel) st;
     trace := [firestore_delete (str guild ++ py "-" ++ str channel)];
     outcome := Raised TypeError |}.
Proof. reflexivity. Qed.

Lemma get_all_guild_webhooks_initialised (guild : N) (st : Collection) :
  get_all_guild_webhooks (Some c) guild st =
  {| final := st;
     trace := [firestore_where (py "guild_id") (str guild)];
     outcome := Raised TypeError |}.
Proof. reflexivity. Qed.

(** Without a handle, the lookup returns nothing and asks nothing. *)
Lemma get_channel_webhook_uninitialised (guild channel : N) (st : Collection) :
  get_channel_webhook None guild channel st =
  {| final := st; trace := []; outcome := Returned None |}.
Proof. reflexivity. Qed.

Lemma get_channel_webhook_returned (db : option Client) (guild channel : N)
    (st : Collection) (o : option pystr) :
  outcome (get_channel_webhook db guild channel st) = Returned o ->
  db = None /\ o = None.
Proof.
  destruct db as [c'|]; [discriminate|]. intros [= <-]. done.
Qed.

End StoreFacts.

(** ** The message handler *)

#[local] Arguments py : simpl never.
#[local] Arguments str : simpl never.
#[local] Arguments strip : simpl never.
#[local] Arguments replace : simpl never.
#[local] Arguments mention_text : simpl never.
#[local] Arguments build_payload : simpl never.

(** Splits a run of the handler for a human author along the cases [H] of
    its run, and rewrites the goal with the trace and the outcome of each. *)
Ltac split_handler_cases H :=
  let Hfinal := fresh "Hfinal" in
  let Htrace := fresh "Htrace" in
  let Hout := fresh "Hout" in
  destruct H
    as [Hfinal
        [(c0 & g0 & Kdb & Kguild & Htrace & Hout)
        |[Klookup
          [(Ktrig & Htrace & Hout)
          |[(Ktrig & Kguild & Kname & Htrace & Hout)
           |[(Ktrig & (url0 & place0 & Kurl & Kne & Kplace & Htrace) & Hout)
            |[(Ktrig & Kurl & (cls0 & cid0 & name0 & g0 & Kch & Htrace) & Hout)
             |(Ktrig & Kurl & Kguild & Kname & Htrace & Hout)]]]]]]];
  cbn zeta in *;
  rewrite ?Hfinal, ?Htrace, ?Hout.

Section HandlerFacts.

Context (bot_user_id : N) (WEBHOOK_URL : option pystr) (db : option Client)
        (requests_post : pystr -> Payload -> PostResult).

Local Abbreviation run message st :=
  (on_message bot_user_id WEBHOOK_URL db requests_post message st).

(** How a run of the handler for a human author goes.  Either the lookup
    of the per-channel URL raises, which it does whenever there is a handle
    and a guild; or it returns nothing, and the run goes on in one of five
    ways. *)
Lemma on_message_cases message st :
  author_bot (message_author message) = false ->
  final (run message st) = st /\
  let channel := message_channel message in
  let triggered := isinstance_DMChannel channel || mentioned_in bot_user_id message in
  let p := build_payload message (isinstance_DMChannel channel)
             (mentioned_in bot_user_id message)
             (strip (replace (message_content message) (mention_text bot_user_id) [])) in
  (exists c g,
     db = Some c /\ message_guild message = Some g /\
     trace (run message st) =
       [firestore_get (str (guild_id g) ++ py "-" ++ str (channel_id channel))] /\
     outcome (run message st) = Raised TypeError)
  \/
  ((db = None \/ message_guild message = None) /\
   ((triggered = false /\
     trace (run message st) = [process_commands (message_id message)] /\
     outcome (run message st) = Returned tt)
    \/
    (triggered = true /\ is_Some (message_guild message) /\ channel_name channel = None /\
     trace (run message st) = [] /\
     outcome (run message st)
       = Raised (AttributeError (channel_type_name channel) (py "name")))
    \/
    (triggered = true /\
     (exists url place,
        WEBHOOK_URL = Some url /\ url <> [] /\
        (message_guild message = None /\ place = py "DM" \/
         is_Some (message_guild message) /\ channel_name channel = Some place) /\
        trace (run message st) =
          [logged (info_processing (author_str (message_author message)) place
                     (message_content message));
           logged (info_sending_payload p);
           requests_post_call url p]
          ++ match requests_post url p with
             | Response status_code => [logged (info_response_status status_code)]
             | RequestException e =>
                 [logged (error_send_failed e);
                  channel_send (channel_id channel)
                    (py "Error sending message to webhook: " ++ e)]
             end
          ++ [process_commands (message_id message)]) /\
     outcome (run message st) = Returned tt)
    \/
    (triggered = true /\ truthy WEBHOOK_URL = false /\
     (exists cls cid name g,
        channel = GuildChannel cls cid name g /\
        trace (run message st) =
          [logged (info_processing (author_str (message_author message)) name
                     (message_content message));
           logged (warning_no_webhook_url name);
           channel_send cid
             (py "Error: No webhook URL configured for this channel or globally. Please use `/setup`.");
           process_commands (message_id message)]) /\
     outcome (run message st) = Returned tt)
    \/
    (triggered = true /\ truthy WEBHOOK_URL = false /\
     message_guild message = None /\ channel_name channel = None /\
     trace (run message st) =
       [logged (info_processing (author_str (message_author message)) (py "DM")
                  (message_content message))] /\
     outcome (run message st)
       = Raised (AttributeError (channel_type_name channel) (py "name"))))).
Proof.
  intros Hbot. unfold on_message, message_guild. rewrite Hbot.
  destruct (message_channel message) as [cid|cls cid name g|cid [g|]] eqn:Hch;
    cbn [channel_guild channel_id channel_name isinstance_DMChannel
         channel_type_name orb];
    try (destruct db as [c|];
         [ split; [reflexivity|]; left; by exists c, g | ]);
    cbn; destruct (mentioned_in bot_user_id message) eqn:Hm; cbn;
    try destruct WEBHOOK_URL as [[|u0 u]|]; cbn;
    try destruct (requests_post _ _) eqn:Hreq; cbn.
  all: split; [reflexivity|]; right; (split; [by auto|]).
  all: try (left; done).
  all: right; try (left; repeat split; by eauto).
  all: right;
    try (left; split; [done|]; split; [|done];
         eexists (u0 :: u), _; split; [reflexivity|]; split; [discriminate|];
         split; [(left; by split) || (right; split; [by eexists|reflexivity])|];
         by rewrite Hreq).
  all: right; try (left; split; [done|]; split; [done|]; split; [|done];
                   by eexists _, _, _, _).
  all: right; done.
Qed.

Ltac handler_cases message st Hbot :=
  split_handler_cases (on_message_cases message st Hbot).

(** Every run of the handler either makes no POST, or makes exactly one,
    carrying the payload built from the message; then a response of any status
    is only logged, and a transport exception is told to the channel. *)
Lemma on_message_delivery message st :
  posts (trace (run message st)) = [] \/
  exists url,
    let p := build_payload message (isinstance_DMChannel (message_channel message))
               (mentioned_in bot_user_id message)
               (strip (replace (message_content message) (mention_text bot_user_id) [])) in
    WEBHOOK_URL = Some url /\ url <> [] /\
    posts (trace (run message st)) = [(url, p)] /\
    final (run message st) = st /\
    outcome (run message st) = Returned tt /\
    match requests_post url p with
    | Response status_code =>
        logged (info_response_status status_code) ∈ trace (run message st) /\
        chat_messages (trace (run message st)) = []
    | RequestException e =>
        chat_messages (trace (run message st)) =
          [py "Error sending message to webhook: " ++ e]
    end.
Proof.
  destruct (author_bot (message_author message)) eqn:Hbot.
  { left. unfold on_message. by rewrite Hbot. }
  handler_cases message st Hbot; try (by left).
  right. exists url0. split; [done|]. split; [done|].
  destruct (requests_post url0 _); cbn; repeat split; try done;
    by repeat constructor.
Qed.

(** C4: a message written by an automated account ends the handler at once.
    Nothing is looked up, no payload is built, no POST is made and nothing is
    said in the channel, whatever the channel, the mentions and the stored
    configuration are. *)
Theorem automated_author_ignored message st :
  author_bot (message_author message) = true ->
  on_message bot_user_id WEBHOOK_URL db requests_post message st
  = {| final := st; trace := []; outcome := Returned tt |}.
Proof. intros Hbot. unfold on_message. by rewrite Hbot. Qed.

(** A server message of a human author that does not mention the bot is not
    forwarded when the lookup for its channel returns no URL: no POST is
    made, nothing is said in the channel, the store is left as it was, and
    the message is handed to command processing. *)
Lemma plain_server_message_not_forwarded message st cls cid name g :
  author_bot (message_author message) = false ->
  message_channel message = GuildChannel cls cid name g ->
  mentioned_in bot_user_id message = false ->
  outcome (get_channel_webhook db (guild_id g) cid st) = Returned None ->
  posts (trace (run message st)) = [] /\
  chat_messages (trace (run message st)) = [] /\
  process_commands (message_id message) ∈ trace (run message st) /\
  final (run message st) = st /\
  outcome (run message st) = Returned tt.
Proof.
  intros Hbot Hch Hm Hget.
  apply get_channel_webhook_returned in Hget as [Hnone _].
  handler_cases message st Hbot; try congruence;
    rewrite Hch, Hm in Ktrig; try discriminate.
  repeat split. by repeat constructor.
Qed.

(** With a handle on the store, every message of a human author in a server
    ends in the lookup: the document of the channel is asked for, and the
    [await] of what came back raises.  Nothing is posted, nothing is said, and
    command processing is not reached. *)
Lemma server_message_lookup_raises (c : Client) message st g :
  db = Some c ->
  author_bot (message_author message) = false ->
  message_guild message = Some g ->
  run message st =
  {| final := st;
     trace := [firestore_get (str (guild_id g) ++ py "-"
                              ++ str (channel_id (message_channel message)))];
     outcome := Raised TypeError |}.
Proof.
  intros Hdb Hbot Hg. unfold on_message. rewrite Hbot, Hg, Hdb. reflexivity.
Qed.

(** C1, as the handler has it: a direct message of a human author is
    forwarded, once, to the global URL, provided that URL is set.  Its
    reason is [dm] unless the message mentions the bot, in which case it is
    [mention].  The clean content is the text with every occurrence of the
    mention token taken out and the surrounding whitespace stripped. *)
Theorem direct_message_forwarded message st cid url :
  author_bot (message_author message) = false ->
  message_channel message = DMChannel cid ->
  WEBHOOK_URL = Some url ->
  url <> [] ->
  exists p,
    posts (trace (run message st)) = [(url, p)] /\
    final (run message st) = st /\
    payload_source p =
      (if mentioned_in bot_user_id message then py "mention" else py "dm") /\
    forall parts,
      Forall (fun s => contains (mention_text bot_user_id) s = false) parts ->
      message_content message = join (mention_text bot_user_id) parts ->
      payload_content p = strip (concat parts).
Proof.
  intros Hbot Hch Hurl Hne.
  assert (Htruthy : truthy WEBHOOK_URL = true).
  { rewrite Hurl. by destruct url. }
  handler_cases message st Hbot; unfold message_guild in *;
    rewrite Hch in *; try discriminate; try congruence.
  - by destruct Kguild.
  - assert (url0 = url) as -> by congruence.
    eexists. split.
    { destruct (requests_post url _); reflexivity. }
    split; [done|]. split.
    + unfold build_payload; cbn. by destruct (mentioned_in _ _).
    + intros parts Hparts Hjoin. unfold build_payload; cbn.
      by rewrite Hjoin, clean_content_join.
Qed.


(** C3, as the handler has it: in every payload that is posted,
    [original_content] is the text of the message, and [content] is that text
    with every occurrence of the bot's mention token taken out and then
    stripped of whitespace at both ends: the text is cut at the occurrences
    of the token into pieces without it, and however that is done, [content]
    is the pieces put together again, stripped.  The pieces, mentions of
    other users among them, are not touched. *)
Theorem payload_content_without_mentions message st url p :
  (url, p) ∈ posts (trace (run message st)) ->
  payload_original_content p = message_content message /\
  (exists parts,
     message_content message = join (mention_text bot_user_id) parts /\
     Forall (fun s => contains (mention_text bot_user_id) s = false) parts /\
     payload_content p = strip (concat parts)) /\
  forall parts,
    Forall (fun s => contains (mention_text bot_user_id) s = false) parts ->
    message_content message = join (mention_text bot_user_id) parts ->
    payload_content p = strip (concat parts).
Proof.
  intros Hin.
  destruct (on_message_delivery message st) as [Hnone|(url' & _ & _ & Hposts & _)].
  { rewrite Hnone in Hin. by apply elem_of_nil in Hin. }
  rewrite Hposts in Hin. apply list_elem_of_singleton in Hin.
  injection Hin as -> ->.
  assert (Hall : forall parts,
    Forall (fun s => contains (mention_text bot_user_id) s = false) parts ->
    message_content message = join (mention_text bot_user_id) parts ->
    strip (replace (message_content message) (mention_text bot_user_id) [])
    = strip (concat parts)).
  { intros parts Hparts Hjoin. by rewrite Hjoin, clean_content_join. }
  split; [done|]. split; [|exact Hall].
  destruct (content_cut_at_mentions bot_user_id (message_content message))
    as (parts & Hjoin & Hparts).
  exists parts. split; [done|]. split; [done|]. by apply Hall.
Qed.

(** C9: when a POST is made it is made once.  Whatever the status of the
    response, it is logged and nothing is said in the channel; a transport
    exception, and only that, is told to the channel.  Either way the
    handler goes on to command processing and returns. *)
Theorem delivery_outcome message st url p :
  (url, p) ∈ posts (trace (run message st)) ->
  posts (trace (run message st)) = [(url, p)] /\
  outcome (run message st) = Returned tt /\
  match requests_post url p with
  | Response status_code =>
      logged (info_response_status status_code) ∈ trace (run message st) /\
      chat_messages (trace (run message st)) = []
  | RequestException e =>
      chat_messages (trace (run message st)) =
        [py "Error sending message to webhook: " ++ e]
  end.
Proof.
  intros Hin.
  destruct (on_message_delivery message st)
    as [Hnone|(url' & _ & _ & Hposts & _ & Hout & Hres)].
  { rewrite Hnone in Hin. by apply elem_of_nil in Hin. }
  rewrite Hposts in Hin. apply list_elem_of_singleton in Hin.
  injection Hin as -> ->. done.
Qed.

(** Without any URL, a triggering message of a server channel is answered
    with the configuration error and not posted. *)
Lemma server_message_without_url_reported message st cls cid name g :
  author_bot (message_author message) = false ->
  message_channel message = GuildChannel cls cid name g ->
  mentioned_in bot_user_id message = true ->
  outcome (get_channel_webhook db (guild_id g) cid st) = Returned None ->
  truthy WEBHOOK_URL = false ->
  posts (trace (run message st)) = [] /\
  chat_messages (trace (run message st)) =
    [py "Error: No webhook URL configured for this channel or globally. Please use `/setup`."] /\
  final (run message st) = st /\
  outcome (run message st) = Returned tt.
Proof.
  intros Hbot Hch Hm Hget Hurl.
  apply get_channel_webhook_returned in Hget as [Hnone _].
  handler_cases message st Hbot; unfold message_guild in *;
    rewrite Hch, ?Hm in *; try discriminate; try congruence.
  { rewrite Kurl in Hurl. by destruct url0. }
  done.
Qed.

(** Without any URL, a direct message is never answered: reading the name
    of its channel for the warning fails. *)
Lemma direct_message_without_url_unreported message st cid :
  author_bot (message_author message) = false ->
  message_channel message = DMChannel cid ->
  truthy WEBHOOK_URL = false ->
  posts (trace (run message st)) = [] /\
  chat_messages (trace (run message st)) = [] /\
  (process_commands (message_id message) ∉ trace (run message st)) /\
  outcome (run message st) = Raised (AttributeError (py "DMChannel") (py "name")).
Proof.
  intros Hbot Hch Hurl.
  unfold on_message, message_guild. rewrite Hbot, Hch. cbn.
  rewrite Hurl. cbn. repeat split; try done.
  rewrite list_elem_of_singleton. discriminate.
Qed.

End HandlerFacts.
(** ** The claims on the example deployment *)

Section Examples.

Import Scenario.

Example ex_str : str 1205 = py "1205".
Proof. reflexivity. Qed.

Example ex_mention_text : mention_text bot_id = py "<@42>".
Proof. reflexivity. Qed.

Example ex_replace_all :
  replace (py "<@42> hi <@42>!") (py "<@42>") [] = py " hi !".
Proof. reflexivity. Qed.

Example ex_replace_other_user :
  replace (py "<@42> ask <@421> or <@7>") (py "<@42>") [] = py " ask <@421> or <@7>".
Proof. reflexivity. Qed.

Example ex_strip : strip (py "  hi there  ") = py "hi there".
Proof. reflexivity. Qed.

(** The direct message [<@42> hello], the global URL set: the clean content
    is [hello] and the POST goes to the global URL. *)
Example ex_dm_clean_content :
  (fun '(url, p) => (url, payload_content p, payload_original_content p)) <$>
    posts (trace (on_message bot_id (Some global_url) (Some client) (answers 200)
                    (dm_message alice "<@42> hello" [42]) ∅))
  = [(global_url, py "hello", py "<@42> hello")].
Proof. reflexivity. Qed.

(** The query of [get_all_guild_webhooks] selects a document by the server
    its [guild_id] field names, not by the server its document id starts
    with. *)
Example ex_query_by_field :
  where_eq (py "guild_id") (str 7) mixed_store = [stray_doc] /\
  where_eq (py "guild_id") (str 1) mixed_store = [h1_doc].
Proof. split; vm_compute; reflexivity. Qed.

(** Without a handle on the store, a plain message in a server channel is
    handed to command processing and nothing else happens. *)
Example ex_plain_server_message :
  on_message bot_id (Some global_url) None (answers 200)
    (server_message alice_member "hello" []) ∅
  = {| final := ∅; trace := [process_commands 101]; outcome := Returned tt |}.
Proof. reflexivity. Qed.

(** A mention in a channel the library has not resolved, of a server: the
    handler fails on the name of the channel before it logs anything. *)
Example ex_partial_channel_mention :
  on_message bot_id (Some global_url) None (answers 200)
    {| message_id := 102; message_author := alice_member;
       message_channel := PartialMessageable 3 (Some home);
       message_content := py "<@42> ping";
       message_jump_url := py "https://discord.com/channels/1/3/102";
       message_created_at_isoformat := py "2024-01-01T00:00:00+00:00";
       message_mentions := [42]; message_mention_everyone := false |} ∅
  = {| final := ∅; trace := [];
       outcome := Raised (AttributeError (py "PartialMessageable") (py "name")) |}.
Proof. reflexivity. Qed.

End Examples.

Import Scenario.
Import Cases.

Lemma automated_author_ignored_witness :
  author_bot (message_author (dm_message other_bot "<@42> hello" [42])) = true /\
  on_message bot_id (Some global_url) (Some client) (answers 200)
    (dm_message other_bot "<@42> hello" [42]) configured_store
  = {| final := configured_store; trace := []; outcome := Returned tt |}.
Proof.
  split; [reflexivity|].
  apply (automated_author_ignored bot_id (Some global_url) (Some client) (answers 200)).
  reflexivity.
Defined.

Lemma direct_message_forwarded_witness :
  exists p,
    posts (trace (on_message bot_id (Some global_url) (Some client) (answers 200)
                    (dm_message alice "<@42> hello" [42]) ∅)) = [(global_url, p)] /\
    final (on_message bot_id (Some global_url) (Some client) (answers 200)
             (dm_message alice "<@42> hello" [42]) ∅) = ∅ /\
    payload_source p =
      (if mentioned_in bot_id (dm_message alice "<@42> hello" [42])
       then py "mention" else py "dm") /\
    forall parts,
      Forall (fun s => contains (mention_text bot_id) s = false) parts ->
      message_content (dm_message alice "<@42> hello" [42])
        = join (mention_text bot_id) parts ->
      payload_content p = strip (concat parts).
Proof.
  apply (direct_message_forwarded bot_id (Some global_url) (Some client)
           (answers 200) (dm_message alice "<@42> hello" [42]) ∅ 55 global_url).
  - reflexivity.
  - reflexivity.
  - reflexivity.
  - discriminate.
Defined.


Lemma payload_content_without_mentions_witness :
  (global_url, hello_payload)
    ∈ posts (trace (on_message bot_id (Some global_url) (Some client) (answers 200)
                      (dm_message alice "<@42> hello" [42]) ∅)) /\
  payload_original_content hello_payload = py "<@42> hello" /\
  payload_content hello_payload = strip (concat [ []; py " hello" ]).
Proof.
  assert (Hin : (global_url, hello_payload)
    ∈ posts (trace (on_message bot_id (Some global_url) (Some client) (answers 200)
                      (dm_message alice "<@42> hello" [42]) ∅))).
  { apply list_elem_of_singleton. reflexivity. }
  split; [exact Hin|].
  destruct (payload_content_without_mentions bot_id (Some global_url) (Some client)
              (answers 200) (dm_message alice "<@42> hello" [42]) ∅
              global_url hello_payload Hin) as [Horig [_ Hclean]].
  split; [exact Horig|].
  apply Hclean.
  - repeat constructor.
  - reflexivity.
Defined.

Lemma delivery_outcome_witness :
  posts (trace (on_message bot_id (Some global_url) (Some client) (answers 500)
                  (dm_message alice "<@42> hello" [42]) ∅))
    = [(global_url, hello_payload)] /\
  outcome (on_message bot_id (Some global_url) (Some client) (answers 500)
             (dm_message alice "<@42> hello" [42]) ∅) = Returned tt /\
  logged (info_response_status 500)
    ∈ trace (on_message bot_id (Some global_url) (Some client) (answers 500)
               (dm_message alice "<@42> hello" [42]) ∅) /\
  chat_messages (trace (on_message bot_id (Some global_url) (Some client) (answers 500)
                          (dm_message alice "<@42> hello" [42]) ∅)) = [].
Proof.
  apply (delivery_outcome bot_id (Some global_url) (Some client) (answers 500)
           (dm_message alice "<@42> hello" [42]) ∅ global_url hello_payload).
  apply list_elem_of_singleton. reflexivity.
Defined.

(** The same message when the network cannot be reached: the exception is
    told to the channel, once, and the POST is not made again. *)
Example ex_transport_failure :
  posts (trace (on_message bot_id (Some global_url) (Some client) unreachable
                  (dm_message alice "<@42> hello" [42]) ∅))
    = [(global_url, hello_payload)] /\
  chat_messages (trace (on_message bot_id (Some global_url) (Some client) unreachable
                          (dm_message alice "<@42> hello" [42]) ∅))
    = [py "Error sending message to webhook: connection refused"].
Proof. split; reflexivity. Qed.

(** C1 fails as stated: a direct message that mentions the bot is posted
    with reason [mention], not [dm]; and with no global URL a direct message
    is not posted at all. *)
Lemma direct_message_reason_counterexample :
  author_bot (message_author (dm_message alice "<@42> hello" [42])) = false /\
  isinstance_DMChannel (message_channel (dm_message alice "<@42> hello" [42])) = true /\
  (exists p,
     posts (trace (on_message bot_id (Some global_url) (Some client) (answers 200)
                     (dm_message alice "<@42> hello" [42]) ∅)) = [(global_url, p)] /\
     payload_source p = py "mention" /\
     payload_source p <> py "dm") /\
  posts (trace (on_message bot_id None (Some client) (answers 200)
                  (dm_message alice "hello" []) ∅)) = [].
Proof.
  split; [reflexivity|]. split; [reflexivity|]. split; [|reflexivity].
  exists hello_payload. split; [reflexivity|]. split; [reflexivity|discriminate].
Qed.


(** C3 fails as stated: of the text [<@42> hi <@42>!] both occurrences of the
    token are taken out, and the result is stripped: the content is [hi !],
    which is not the text less one occurrence of the token. *)
Lemma payload_content_counterexample :
  exists p,
    posts (trace (on_message bot_id (Some global_url) (Some client) (answers 200)
                    (dm_message alice "<@42> hi <@42>!" [42]) ∅)) = [(global_url, p)] /\
    payload_content p = py "hi !" /\
    ~ exists a b,
        message_content (dm_message alice "<@42> hi <@42>!" [42])
          = a ++ mention_text bot_id ++ b /\
        payload_content p = a ++ b.
Proof.
  exists (build_payload (dm_message alice "<@42> hi <@42>!" [42]) true true (py "hi !")).
  split; [reflexivity|]. split; [reflexivity|].
  intros (a & b & Ha & Hb).
  apply (f_equal length) in Ha, Hb.
  rewrite !length_app in Ha. rewrite length_app in Hb.
  change (15 = length a + (5 + length b))%nat in Ha.
  change (4 = length a + length b)%nat in Hb.
  lia.
Qed.

(** C5 at a plain message in a server channel, the store handle being the
    one the module opens: the handler asks the store for the channel's
    document and fails on the [await] of what came back.  Nothing is posted,
    and command processing is not reached. *)
Theorem plain_server_message_lookup_raises :
  on_message bot_id (Some global_url) (Some client) (answers 200)
    (server_message alice_member "hello" []) ∅
  = {| final := ∅;
       trace := [firestore_get (py "1-2")];
       outcome := Raised TypeError |} /\
  posts (trace (on_message bot_id (Some global_url) (Some client) (answers 200)
                  (server_message alice_member "hello" []) ∅)) = [] /\
  commands_processed
    (trace (on_message bot_id (Some global_url) (Some client) (answers 200)
              (server_message alice_member "hello" []) ∅)) = [].
Proof. repeat split. Qed.

(** C6 at a direct message with no URL at all: the handler logs the message
    and then fails on [message.channel.name], which a direct-message channel
    does not have.  Nothing is sent to the user and command processing is
    not reached. *)
Theorem direct_message_without_url_raises :
  on_message bot_id None (Some client) (answers 200) (dm_message alice "hello" []) ∅
  = {| final := ∅;
       trace := [logged (info_processing (py "alice") (py "DM") (py "hello"))];
       outcome := Raised (AttributeError (py "DMChannel") (py "name")) |} /\
  chat_messages (trace (on_message bot_id None (Some client) (answers 200)
                          (dm_message alice "hello" []) ∅)) = [].
Proof. split; reflexivity. Qed.

(** C7 at server 1, channel 2 and the URL [https://x/h1]: [set] writes the
    document and then fails on the [await], so the [get] that follows is not
    reached and no URL is returned; [get] on its own fails the same way
    after its read, also on the store that holds the document; and so does
    [delete], after the document is gone. *)
Theorem store_round_trip_raises :
  bind (set_channel_webhook (Some client) 1 2 h1_url)
    (fun _ => get_channel_webhook (Some client) 1 2) ∅
  = {| final := configured_store;
       trace := [firestore_set (py "1-2") h1_doc];
       outcome := Raised TypeError |} /\
  get_channel_webhook (Some client) 1 2 configured_store
  = {| final := configured_store;
       trace := [firestore_get (py "1-2")];
       outcome := Raised TypeError |} /\
  bind (delete_channel_webhook (Some client) 1 2)
    (fun _ => get_channel_webhook (Some client) 1 2) configured_store
  = {| final := ∅;
       trace := [firestore_delete (py "1-2")];
       outcome := Raised TypeError |}.
Proof. repeat split; vm_compute; reflexivity. Qed.

(** C8 at server 1 and a store with a document of server 1 and one of
    server 7: the query is made, on the [guild_id] field, and the [await] of
    its result fails; no list is returned. *)
Theorem list_by_server_raises :
  get_all_guild_webhooks (Some client) 1 mixed_store
  = {| final := mixed_store;
       trace := [firestore_where (py "guild_id") (py "1")];
       outcome := Raised TypeError |}.
Proof. reflexivity. Qed.

(** C10 at [/remove] in channel 2 of server 1 with nothing stored: the
    command asks the store for the channel's document and fails on the
    [await] of what came back.  Nothing is deleted and the store is as it
    was, but the invoker is told nothing. *)
Theorem remove_lookup_raises :
  remove (Some client) in_general ∅
  = {| final := ∅;
       trace := [firestore_get (py "1-2")];
       outcome := Raised TypeError |} /\
  deletes (trace (remove (Some client) in_general ∅)) = [] /\
  replies (trace (remove (Some client) in_general ∅)) = [].
Proof. repeat split. Qed.

(** * Further properties *)

(** ** Document ids *)

Section DocumentIds.

Lemma digits_inj d d' : digits d = digits d' -> d = d'.
Proof.
  revert d'. induction d; destruct d'; simpl; intros H;
    try discriminate; try reflexivity;
    injection H as H; f_equal; by apply IHd.
Qed.

Lemma str_inj n m : str n = str m -> n = m.
Proof.
  unfold str. intros H. apply digits_inj in H.
  rewrite <- (DecimalN.Unsigned.of_to n), <- (DecimalN.Unsigned.of_to m).
  by rewrite H.
Qed.

Lemma digits_no_dash d : 45 ∉ digits d.
Proof.
  induction d; simpl; [apply not_elem_of_nil|..];
    (apply not_elem_of_cons; split; [discriminate|done]).
Qed.

Lemma split_at_first (x : N) (a a' b b' : pystr) :
  x ∉ a -> x ∉ a' -> a ++ x :: b = a' ++ x :: b' -> a = a' /\ b = b'.
Proof.
  revert a'. induction a as [|y a IH]; intros [|y' a'] Ha Ha' H; simpl in H.
  - by injection H.
  - injection H as -> _. exfalso. apply Ha'. by left.
  - injection H as -> _. exfalso. apply Ha. by left.
  - injection H as -> H. apply not_elem_of_cons in Ha as [_ Ha].
    apply not_elem_of_cons in Ha' as [_ Ha'].
    destruct (IH a' Ha Ha' H) as [-> ->]. done.
Qed.

Lemma document_id_inj (guild channel guild' channel' : N) :
  str guild ++ py "-" ++ str channel = str guild' ++ py "-" ++ str channel' ->
  guild = guild' /\ channel = channel'.
Proof.
  intros H.
  apply (split_at_first 45) in H as [Hg Hc]; try apply digits_no_dash.
  split; by apply str_inj.
Qed.

(** X1: two pairs of a server and a channel have the same document reference
    only if they are the same pair. *)
Theorem document_reference_injective (c : Client) (guild channel guild' channel' : N) :
  get_channel_webhook_ref (Some c) guild channel
  = get_channel_webhook_ref (Some c) guild' channel' ->
  guild = guild' /\ channel = channel'.
Proof.
  unfold get_channel_webhook_ref. intros H. injection H as H.
  by apply document_id_inj.
Qed.

End DocumentIds.

(** ** The store helpers together *)

Section StoreExtras.

Context (c : Client).

(** X2: the write of [set] and the removal of [delete] for one channel leave
    the document of every other pair of a server and a channel as it was. *)
Theorem other_channels_unchanged (guild channel guild' channel' : N)
    (url : pystr) (st : Collection) :
  guild <> guild' \/ channel <> channel' ->
  final (set_channel_webhook (Some c) guild channel url st)
    !! (str guild' ++ py "-" ++ str channel')
  = st !! (str guild' ++ py "-" ++ str channel') /\
  final (delete_channel_webhook (Some c) guild channel st)
    !! (str guild' ++ py "-" ++ str channel')
  = st !! (str guild' ++ py "-" ++ str channel').
Proof.
  intros Hne.
  assert (Hkey : str guild ++ py "-" ++ str channel
                 <> str guild' ++ py "-" ++ str channel').
  { intros H. apply document_id_inj in H as [-> ->]. by destruct Hne. }
  rewrite set_channel_webhook_initialised, delete_channel_webhook_initialised.
  cbn [final]. by rewrite lookup_insert_ne, lookup_delete_ne.
Qed.

(** X3: a second [set] for the same channel replaces the first: the store
    is as if only the second had been made, and the channel's document
    carries the second URL. *)
Theorem set_replaces (guild channel : N) (url1 url2 : pystr) (st : Collection) :
  final (set_channel_webhook (Some c) guild channel url2
           (final (set_channel_webhook (Some c) guild channel url1 st)))
  = final (set_channel_webhook (Some c) guild channel url2 st) /\
  exists doc : Document,
    final (set_channel_webhook (Some c) guild channel url2
             (final (set_channel_webhook (Some c) guild channel url1 st)))
      !! (str guild ++ py "-" ++ str channel) = Some doc /\
    doc !! py "webhook_url" = Some url2.
Proof.
  rewrite !set_channel_webhook_initialised. cbn [final].
  rewrite insert_insert_eq. split; [done|].
  eexists. split; [apply lookup_insert_eq|apply lookup_insert_eq].
Qed.

Lemma well_keyed_empty : well_keyed ∅.
Proof. intros key doc H. by rewrite lookup_empty in H. Qed.

Lemma well_keyed_insert (guild channel : N) (url : pystr) (st : Collection) :
  well_keyed st ->
  well_keyed
    (<[str guild ++ py "-" ++ str channel :=
         <[py "webhook_url" := url]>
           (<[py "guild_id" := str guild]>
              (<[py "channel_id" := str channel]> ∅))]> st).
Proof.
  intros Hwf key doc Hdoc.
  apply lookup_insert_Some in Hdoc as [[<- <-]|[_ Hdoc]]; [|by apply Hwf].
  exists guild, channel. split; [done|]. split.
  - rewrite lookup_insert_ne by discriminate. apply lookup_insert_eq.
  - rewrite !lookup_insert_ne by discriminate. apply lookup_insert_eq.
Qed.

(** X5: the helper functions keep the store well keyed: after [set] and
    after [delete], every document still sits under the id made of its
    [guild_id] and [channel_id] fields. *)
Theorem well_keyed_preserved (guild channel : N) (url : pystr) (st : Collection) :
  well_keyed st ->
  well_keyed (final (set_channel_webhook (Some c) guild channel url st)) /\
  well_keyed (final (delete_channel_webhook (Some c) guild channel st)).
Proof.
  intros Hwf.
  rewrite set_channel_webhook_initialised, delete_channel_webhook_initialised.
  cbn [final]. split; [by apply well_keyed_insert|].
  intros key doc Hdoc.
  apply lookup_delete_Some in Hdoc as [_ Hdoc]. by apply Hwf.
Qed.

End StoreExtras.

(** ** The message handler, whatever the message *)

Section HandlerExtras.

Context (bot_user_id : N) (WEBHOOK_URL : option pystr) (db : option Client)
        (requests_post : pystr -> Payload -> PostResult).

Local Abbreviation run message st :=
  (on_message bot_user_id WEBHOOK_URL db requests_post message st).

(** Splits a run of the handler into the run for an automated author and
    the cases of [on_message_cases]. *)
Ltac handler_cases message st :=
  let Hbot := fresh "Hbot" in
  destruct (author_bot (message_author message)) eqn:Hbot;
  [ unfold on_message; rewrite Hbot
  | split_handler_cases
      (on_message_cases bot_user_id WEBHOOK_URL db requests_post message st Hbot);
    try destruct (requests_post _ _) ].

(** X7: the handler never changes the store and never asks it to write:
    whatever the message, the store after the run is the store before. *)
Theorem on_message_store_untouched message st :
  final (run message st) = st /\ store_writes (trace (run message st)) = [].
Proof. handler_cases message st; done. Qed.

(** X8: when the handler raises.  It raises [TypeError] exactly for the
    messages of a human author in a server while there is a handle on the
    store: the lookup of the channel's URL fails on its [await].  It raises
    [AttributeError] on the name of the channel exactly when the lookup does
    not fail and a direct message or a mention arrives in a channel that has
    no name, in a server or while no global URL is set.  It raises nothing
    else. *)
Theorem on_message_raises_iff message st :
  (outcome (run message st) = Raised TypeError <->
   author_bot (message_author message) = false /\
   is_Some db /\ is_Some (message_guild message)) /\
  (outcome (run message st)
     = Raised (AttributeError (channel_type_name (message_channel message)) (py "name")) <->
   author_bot (message_author message) = false /\
   ~ (is_Some db /\ is_Some (message_guild message)) /\
   isinstance_DMChannel (message_channel message)
     || mentioned_in bot_user_id message = true /\
   channel_name (message_channel message) = None /\
   (is_Some (message_guild message) \/ truthy WEBHOOK_URL = false)) /\
  (forall e,
     outcome (run message st) = Raised e ->
     e = TypeError \/
     e = AttributeError (channel_type_name (message_channel message)) (py "name")).
Proof.
  assert (Hsome : forall (A : Type) (o : option A), is_Some o -> o <> None).
  { intros A o [x ->]. discriminate. }
  handler_cases message st; cbn in *.
  - (* an automated author *)
    split; [|split]; [split; [discriminate|by intros [? _]]..|discriminate].
  - (* the lookup raises *)
    subst db. rewrite Kguild.
    split; [|split]; [split; [by eauto|done]| |intros e [= <-]; by left].
    split; [discriminate|]. intros (_ & Hno & _). destruct Hno. by eauto.
  - (* not a trigger *)
    split; [|split]; [split; [discriminate|]..|discriminate].
    + intros (_ & Hdb & Hg). destruct Klookup as [->|Hn];
        [by apply Hsome in Hdb|by apply Hsome in Hg].
    + intros (_ & _ & Htrig & _). congruence.
  - (* a trigger in a server channel without a name *)
    split; [|split]; [split; [discriminate|]| |intros e [= <-]; by right].
    + intros (_ & Hdb & Hg). destruct Klookup as [->|Hn];
        [by apply Hsome in Hdb|by apply Hsome in Hg].
    + split; [|done]. intros _. repeat split; try done; [|by left].
      intros [Hdb Hg]. destruct Klookup as [->|Hn];
        [by apply Hsome in Hdb|by apply Hsome in Hg].
  - (* a POST, answered *)
    split; [|split]; [split; [discriminate|]..|discriminate].
    + intros (_ & Hdb & Hg). destruct Klookup as [->|Hn];
        [by apply Hsome in Hdb|by apply Hsome in Hg].
    + intros (_ & _ & _ & Hname & [Hg|Hu]).
      * destruct Kplace as [[Hn _]|[_ Hn]]; [by apply Hsome in Hg|congruence].
      * rewrite Kurl in Hu. by destruct url0.
  - (* a POST, not delivered *)
    split; [|split]; [split; [discriminate|]..|discriminate].
    + intros (_ & Hdb & Hg). destruct Klookup as [->|Hn];
        [by apply Hsome in Hdb|by apply Hsome in Hg].
    + intros (_ & _ & _ & Hname & [Hg|Hu]).
      * destruct Kplace as [[Hn _]|[_ Hn]]; [by apply Hsome in Hg|congruence].
      * rewrite Kurl in Hu. by destruct url0.
  - (* the configuration error *)
    split; [|split]; [split; [discriminate|]..|discriminate].
    + intros (_ & Hdb & Hg). destruct Klookup as [->|Hn];
        [by apply Hsome in Hdb|by apply Hsome in Hg].
    + intros (_ & _ & _ & Hname & _). rewrite Kch in Hname. discriminate.
  - (* no URL and no name *)
    split; [|split]; [split; [discriminate|]| |intros e [= <-]; by right].
    + intros (_ & Hdb & Hg). by apply Hsome in Hg.
    + split; [|done]. intros _. repeat split; try done; [|by right].
      intros [_ Hg]. by apply Hsome in Hg.
Qed.

(** X9: command processing is reached once for every message of a human
    author on which the handler returns, and never otherwise: not for an
    automated author, and not when the handler raises. *)
Theorem commands_processed_once message st :
  commands_processed (trace (run message st)) =
    match outcome (run message st) with
    | Returned _ =>
        if author_bot (message_author message) then [] else [message_id message]
    | Raised _ => []
    end.
Proof. handler_cases message st; done. Qed.

(** X10: the handler says at most one thing in the channel for a message,
    and when it says the configuration error it has made no POST. *)
Theorem one_chat_message_at_most message st :
  (length (chat_messages (trace (run message st))) <= 1)%nat /\
  (py "Error: No webhook URL configured for this channel or globally. Please use `/setup`."
     ∈ chat_messages (trace (run message st)) ->
   posts (trace (run message st)) = []).
Proof.
  handler_cases message st; cbn in *; (split; [lia|]); try done;
    rewrite ?elem_of_nil, ?list_elem_of_singleton; try done;
    intros H; apply (f_equal (take 7)) in H; discriminate.
Qed.

Lemma post_destination_cases message st url p :
  (url, p) ∈ posts (trace (run message st)) ->
  url <> [] /\
  WEBHOOK_URL = Some url /\
  p = build_payload message (isinstance_DMChannel (message_channel message))
        (mentioned_in bot_user_id message)
        (strip (replace (message_content message) (mention_text bot_user_id) [])) /\
  isinstance_DMChannel (message_channel message)
    || mentioned_in bot_user_id message = true /\
  (db = None \/ message_guild message = None) /\
  (is_Some (message_guild message) -> is_Some (channel_name (message_channel message))).
Proof.
  handler_cases message st; cbn in *;
    rewrite ?elem_of_nil, ?list_elem_of_singleton; try done;
    intros [= -> ->]; repeat split; try done;
    intros [g Hg]; destruct Kplace as [[Hn _]|[_ Hn]]; try congruence; by eexists.
Qed.


(** X12: without a store handle the handler still forwards, to the global
    URL only: every POST goes there, none has the reason
    [channel_webhook_trigger], the store is not asked anything, and a
    message of a server channel that does not mention the bot is not
    posted. *)
Theorem without_store message st :
  db = None ->
  (forall url p,
     (url, p) ∈ posts (trace (run message st)) ->
     WEBHOOK_URL = Some url /\ payload_source p <> py "channel_webhook_trigger") /\
  (forall key, firestore_get key ∉ trace (run message st)) /\
  (isinstance_DMChannel (message_channel message) = false ->
   mentioned_in bot_user_id message = false ->
   posts (trace (run message st)) = []).
Proof.
  intros Hdb. split; [|split].
  - intros url p Hin.
    destruct (post_destination_cases message st url p Hin)
      as (_ & Hurl & -> & Htrig & _).
    split; [done|]. unfold build_payload. cbn.
    destruct (mentioned_in bot_user_id message); [discriminate|].
    destruct (isinstance_DMChannel (message_channel message)); discriminate.
  - intros key.
    handler_cases message st; try congruence; cbn in *; intros H;
      repeat (apply elem_of_cons in H as [H|H]; [discriminate|]);
      by apply elem_of_nil in H.
  - intros Hdm Hm.
    destruct (posts (trace (run message st))) as [|[url p] rest] eqn:E; [done|].
    destruct (post_destination_cases message st url p) as (_ & _ & _ & Htrig & _).
    { rewrite E. by left. }
    rewrite Hdm, Hm in Htrig. discriminate.
Qed.

(** X13: the content of a posted payload neither starts nor ends with
    whitespace. *)
Theorem payload_content_trimmed message st url p :
  (url, p) ∈ posts (trace (run message st)) ->
  match payload_content p with [] => True | c :: _ => isspace c = false end /\
  match rev (payload_content p) with [] => True | c :: _ => isspace c = false end.
Proof.
  intros Hin.
  destruct (post_destination_cases message st url p Hin) as (_ & _ & -> & _).
  unfold build_payload. cbn [payload_content].
  destruct (strip_spec (replace (message_content message) (mention_text bot_user_id) []))
    as (l & r & _ & _ & _ & H1 & H2).
  done.
Qed.




End HandlerExtras.

(** ** The commands *)

Section CommandExtras.

Context (c : Client).

(** X15: [/setup] in a server, with the handle on the store and the global
    URL set, writes the document of the channel, with that URL in it, and
    then fails on the [await] of the write: the command ends in [TypeError]
    and has answered nothing, while the document stays stored. *)
Theorem setup_commits_then_raises (interaction : Interaction) (g : Guild)
    (url : pystr) (st : Collection) :
  interaction_guild interaction = Some g ->
  url <> [] ->
  coutcome (setup (Some url) (Some c) interaction st) = Failed (core_exn TypeError) /\
  cfinal (setup (Some url) (Some c) interaction st)
    = final (set_channel_webhook (Some c) (guild_id g)
               (channel_id (interaction_channel interaction)) url st) /\
  (exists doc : Document,
     cfinal (setup (Some url) (Some c) interaction st)
       !! (str (guild_id g) ++ py "-" ++ str (channel_id (interaction_channel interaction)))
       = Some doc /\
     doc !! py "webhook_url" = Some url) /\
  replies (core_events (ctrace (setup (Some url) (Some c) interaction st))) = [].
Proof.
  intros Hg Hne. unfold setup. rewrite Hg.
  destruct url as [|ch url]; [done|]. cbn.
  split; [done|]. split; [done|]. split; [|done].
  eexists. split; [apply lookup_insert_eq|apply lookup_insert_eq].
Qed.

(** X16: [/setup] writes nothing when the store is not initialised, when it
    is used outside a server, or when no global URL is set: the store is
    left as it was and the one answer is private. *)
Theorem setup_guards (WEBHOOK_URL : option pystr) (db : option Client)
    (interaction : Interaction) (st : Collection) :
  db = None \/ interaction_guild interaction = None \/ truthy WEBHOOK_URL = false ->
  coutcome (setup WEBHOOK_URL db interaction st) = Done tt /\
  cfinal (setup WEBHOOK_URL db interaction st) = st /\
  store_writes (core_events (ctrace (setup WEBHOOK_URL db interaction st))) = [] /\
  exists text,
    replies (core_events (ctrace (setup WEBHOOK_URL db interaction st)))
    = [(text, true)].
Proof.
  intros H. unfold setup.
  destruct db as [c'|]; [|by repeat split; eexists].
  destruct (interaction_guild interaction) as [g|]; [|by repeat split; eexists].
  destruct (truthy WEBHOOK_URL) eqn:E; [|by repeat split; eexists].
  by destruct H as [H|[H|H]].
Qed.

(** X18: [/remove] never deletes.  Whatever the handle, the place and the
    store, the store after the command is the store before and no write is
    asked for.  Without a handle or outside a server the command gives its
    one private answer and returns; with a handle in a server it asks for
    the channel's document, fails on the [await] and has answered
    nothing. *)
Theorem remove_never_deletes (db : option Client) (interaction : Interaction)
    (st : Collection) :
  final (remove db interaction st) = st /\
  store_writes (trace (remove db interaction st)) = [] /\
  match db, interaction_guild interaction with
  | Some _, Some g =>
      trace (remove db interaction st)
        = [firestore_get (str (guild_id g) ++ py "-"
                          ++ str (channel_id (interaction_channel interaction)))] /\
      outcome (remove db interaction st) = Raised TypeError
  | _, _ =>
      outcome (remove db interaction st) = Returned tt /\
      exists text, trace (remove db interaction st)
                   = [interaction_send_message text true]
  end.
Proof.
  unfold remove.
  destruct db as [c'|]; [|by repeat split; eexists].
  destruct (interaction_guild interaction) as [g|]; [|by repeat split; eexists].
  done.
Qed.

(** X20: [/status] only reads.  Whatever the handle, the place and the
    store, the store after the command is the store before and no write is
    asked for.  Without a handle or outside a server the command gives its
    one private answer and returns; with a handle in a server it asks for
    the channel's document, fails on the [await] and has answered
    nothing. *)
Theorem status_only_reads (db : option Client) (interaction : Interaction)
    (st : Collection) :
  final (status db interaction st) = st /\
  store_writes (trace (status db interaction st)) = [] /\
  match db, interaction_guild interaction with
  | Some _, Some g =>
      trace (status db interaction st)
        = [firestore_get (str (guild_id g) ++ py "-"
                          ++ str (channel_id (interaction_channel interaction)))] /\
      outcome (status db interaction st) = Raised TypeError
  | _, _ =>
      outcome (status db interaction st) = Returned tt /\
      exists text, trace (status db interaction st)
                   = [interaction_send_message text true]
  end.
Proof.
  unfold status.
  destruct db as [c'|]; [|by repeat split; eexists].
  destruct (interaction_guild interaction) as [g|]; [|by repeat split; eexists].
  done.
Qed.

(** X23: [/list], whatever [int] and the server's channels are.  The store
    after the command is the store before and no write is asked for.
    Without a handle or outside a server the command gives its one private
    answer and returns; with a handle in a server it makes the query on the
    [guild_id] field, fails on the [await] and has answered nothing: the
    loop over the documents is not reached. *)
Theorem list_webhooks_answers (py_int : pystr -> option Z)
    (guild_get_channel : Guild -> Z -> option pystr)
    (db : option Client) (interaction : Interaction) (st : Collection) :
  cfinal (list_webhooks db py_int guild_get_channel interaction st) = st /\
  match db, interaction_guild interaction with
  | Some _, Some g =>
      ctrace (list_webhooks db py_int guild_get_channel interaction st)
        = [core (firestore_where (py "guild_id") (str (guild_id g)))] /\
      coutcome (list_webhooks db py_int guild_get_channel interaction st)
        = Failed (core_exn TypeError)
  | _, _ =>
      coutcome (list_webhooks db py_int guild_get_channel interaction st) = Done tt /\
      exists text, ctrace (list_webhooks db py_int guild_get_channel interaction st)
                   = [core (interaction_send_message text true)]
  end.
Proof.
  unfold list_webhooks.
  destruct db as [c'|]; [|by repeat split; eexists].
  destruct (interaction_guild interaction) as [g|]; [|by repeat split; eexists].
  done.
Qed.

End CommandExtras.

(** ** The error handler of the commands *)

Lemma join_contains (sep p : pystr) (parts : list pystr) :
  p ∈ parts -> contains p (join sep parts) = true.
Proof.
  intros Hp. apply contains_iff.
  induction parts as [|q parts IH]; [by apply elem_of_nil in Hp|].
  destruct parts as [|q' rest].
  - apply list_elem_of_singleton in Hp as ->. exists [], []. simpl.
    by rewrite app_nil_r.
  - change (join sep (q :: q' :: rest)) with (q ++ sep ++ join sep (q' :: rest)).
    apply elem_of_cons in Hp as [->|Hp].
    + by exists [], (sep ++ join sep (q' :: rest)).
    + destruct (IH Hp) as (a & b & ->).
      exists (q ++ sep ++ a), b. by rewrite <- !app_assoc.
Qed.

(** X26: the error handler of the commands returns, leaves the store alone
    and gives exactly one answer, a private one.  For missing permissions
    the answer contains the name of every missing permission.  For any other
    error the answer is one fixed sentence, whatever the error, and the
    error itself goes to the log only. *)
Theorem command_error_answer (error : CommandError) (st : Collection) :
  coutcome (on_app_command_error error st) = Done tt /\
  cfinal (on_app_command_error error st) = st /\
  match error with
  | MissingPermissions missing_permissions =>
      exists text,
        replies (core_events (ctrace (on_app_command_error error st)))
          = [(text, true)] /\
        forall permission,
          permission ∈ missing_permissions -> contains permission text = true
  | OtherError e =>
      replies (core_events (ctrace (on_app_command_error error st)))
        = [(py "An unexpected error occurred while executing this command. Please try again later.",
            true)] /\
      ctrace (on_app_command_error error st)
        = [command_logged (error_command_execution e);
           core (interaction_send_message
                   (py "An unexpected error occurred while executing this command. Please try again later.")
                   true)]
  end.
Proof.
  destruct error as [perms|e]; (split; [done|]; split; [done|]).
  - eexists. split; [reflexivity|]. intros p Hp.
    apply contains_iff. apply join_contains with (sep := py " ") in Hp.
    apply contains_iff in Hp as (a & b & ->).
    eexists (_ ++ a), b. by rewrite <- app_assoc.
  - done.
Qed.

(** ** The start of the process *)

Section StartExtras.

Context (DISCORD_TOKEN WEBHOOK_URL FIREBASE_SERVICE_ACCOUNT_KEY : option pystr)
        (firebase_initialize : pystr -> Client + pystr).

Local Abbreviation start :=
  (main DISCORD_TOKEN WEBHOOK_URL FIREBASE_SERVICE_ACCOUNT_KEY firebase_initialize).

(** X27: the bot runs exactly when the token and the store key are both
    set; otherwise the process leaves with code 1.  A missing global URL
    never stops it: it is only warned about, when the token is set.  When
    the bot runs it runs with the token, and it has no store handle exactly
    when opening the store failed. *)
Theorem start_runs_iff :
  ((exists token db, snd start = bot_run token db) <->
   truthy DISCORD_TOKEN = true /\ truthy FIREBASE_SERVICE_ACCOUNT_KEY = true) /\
  (forall code, snd start = exit code -> code = 1) /\
  (warning_webhook_url_not_set ∈ fst start <->
   truthy DISCORD_TOKEN = true /\ truthy WEBHOOK_URL = false) /\
  (forall token db,
     snd start = bot_run token db ->
     DISCORD_TOKEN = Some token /\
     (db = None <->
      exists e, firebase_initialize (default [] FIREBASE_SERVICE_ACCOUNT_KEY) = inr e)).
Proof.
  unfold main, firestore_setup.
  destruct DISCORD_TOKEN as [[|t0 token]|]; cbn [truthy negb default];
    destruct (truthy FIREBASE_SERVICE_ACCOUNT_KEY) eqn:Hkey; cbn [negb];
    try destruct (firebase_initialize _) as [c|e] eqn:Hinit;
    destruct (truthy WEBHOOK_URL) eqn:Hurl; cbn;
    (split; [split; [intros (? & ? & ?); try discriminate; done
                    |intros [? ?]; try discriminate; by eexists _, _]|]);
    (split; [intros code [= <-]; done || (intros code ?; discriminate)|]);
    (split; [rewrite ?elem_of_app, ?elem_of_cons, ?elem_of_nil;
             split; [intros H; repeat (destruct H as [H|H]); try discriminate; done
                    |intros [? ?]; try discriminate; auto]|]);
    intros tk d [= <- <-] || (intros tk d ?; discriminate).
  all: split; [done|]; split;
    [ intros ?; try discriminate; by eexists
    | intros [? ?]; try discriminate; try congruence ].
Qed.

End StartExtras.

(** ** The further properties on the example deployment *)

Lemma well_keyed_after_setup : well_keyed after_setup.
Proof. apply (well_keyed_insert 1 2 global_url ∅), well_keyed_empty. Qed.

Lemma document_reference_injective_witness :
  get_channel_webhook_ref (Some client) 1 2 = get_channel_webhook_ref (Some client) 1 2 /\
  (1 = 1 /\ 2 = 2).
Proof.
  split; [reflexivity|].
  apply (document_reference_injective client 1 2 1 2). reflexivity.
Defined.

Lemma other_channels_unchanged_witness :
  final (set_channel_webhook (Some client) 1 3 global_url configured_store)
    !! (str 1 ++ py "-" ++ str 2)
  = configured_store !! (str 1 ++ py "-" ++ str 2) /\
  final (delete_channel_webhook (Some client) 1 3 configured_store)
    !! (str 1 ++ py "-" ++ str 2)
  = configured_store !! (str 1 ++ py "-" ++ str 2).
Proof.
  apply (other_channels_unchanged client 1 3 1 2 global_url configured_store).
  right. discriminate.
Defined.

Lemma well_keyed_preserved_witness :
  well_keyed (final (set_channel_webhook (Some client) 1 3 h1_url after_setup)) /\
  well_keyed (final (delete_channel_webhook (Some client) 1 3 after_setup)).
Proof.
  apply (well_keyed_preserved client 1 3 h1_url after_setup).
  apply well_keyed_after_setup.
Defined.


Lemma without_store_witness :
  (forall url p,
     (url, p) ∈ posts (trace (on_message bot_id (Some global_url) None (answers 200)
                                (server_message alice_member "<@42> ping" [42])
                                configured_store)) ->
     Some global_url = Some url /\ payload_source p <> py "channel_webhook_trigger") /\
  (forall key,
     firestore_get key ∉ trace (on_message bot_id (Some global_url) None (answers 200)
                                  (server_message alice_member "<@42> ping" [42])
                                  configured_store)) /\
  (isinstance_DMChannel
     (message_channel (server_message alice_member "<@42> ping" [42])) = false ->
   mentioned_in bot_id (server_message alice_member "<@42> ping" [42]) = false ->
   posts (trace (on_message bot_id (Some global_url) None (answers 200)
                   (server_message alice_member "<@42> ping" [42])
                   configured_store)) = []).
Proof.
  apply (without_store bot_id (Some global_url) None (answers 200)
           (server_message alice_member "<@42> ping" [42]) configured_store).
  reflexivity.
Defined.

Lemma payload_content_trimmed_witness :
  match payload_content hello_payload with
  | [] => True
  | ch :: _ => isspace ch = false
  end /\
  match rev (payload_content hello_payload) with
  | [] => True
  | ch :: _ => isspace ch = false
  end.
Proof.
  apply (payload_content_trimmed bot_id (Some global_url) (Some client) (answers 200)
           (dm_message alice "<@42> hello" [42]) ∅ global_url hello_payload).
  apply list_elem_of_singleton. reflexivity.
Defined.


Lemma setup_commits_then_raises_witness :
  coutcome (setup (Some global_url) (Some client) in_general ∅)
    = Failed (core_exn TypeError) /\
  cfinal (setup (Some global_url) (Some client) in_general ∅)
    = final (set_channel_webhook (Some client) (guild_id home)
               (channel_id (interaction_channel in_general)) global_url ∅) /\
  (exists doc : Document,
     cfinal (setup (Some global_url) (Some client) in_general ∅)
       !! (str (guild_id home) ++ py "-" ++ str (channel_id (interaction_channel in_general)))
       = Some doc /\
     doc !! py "webhook_url" = Some global_url) /\
  replies (core_events (ctrace (setup (Some global_url) (Some client) in_general ∅))) = [].
Proof.
  apply (setup_commits_then_raises client in_general home global_url ∅).
  - reflexivity.
  - discriminate.
Defined.

Lemma setup_guards_witness :
  coutcome (setup None (Some client) in_general configured_store) = Done tt /\
  cfinal (setup None (Some client) in_general configured_store) = configured_store /\
  store_writes (core_events
                  (ctrace (setup None (Some client) in_general configured_store))) = [] /\
  exists text,
    replies (core_events (ctrace (setup None (Some client) in_general configured_store)))
    = [(text, true)].
Proof.
  apply (setup_guards None (Some client) in_general configured_store).
  right. right. reflexivity.
Defined.

(** [/setup] in channel 2 of server 1 leaves the document behind although
    the command has failed, and a [/remove] that follows does not take it
    away. *)
Example ex_setup_then_remove :
  cfinal (setup (Some global_url) (Some client) in_general ∅) = after_setup /\
  final (remove (Some client) in_general after_setup) = after_setup.
Proof. split; vm_compute; reflexivity. Qed.

(** [/status] and [/list] in a direct message, and without a handle. *)
Example ex_commands_outside_a_server :
  trace (status (Some client) in_dm ∅)
  = [interaction_send_message (py "This command can only be used in a server channel.") true] /\
  ctrace (list_webhooks None (fun _ => None) (fun _ _ => None) in_general ∅)
  = [core (interaction_send_message
             (py "Database not initialized. Cannot list webhooks.") true)].
Proof. split; reflexivity. Qed.

(** The start of the process for each missing setting. *)
Example ex_start :
  snd (main None (Some global_url) (Some (py "{}")) (fun _ => inl client)) = exit 1 /\
  snd (main (Some (py "token")) (Some global_url) None (fun _ => inl client)) = exit 1 /\
  main (Some (py "token")) None (Some (py "{}")) (fun _ => inr (py "bad key"))
  = ([error_firebase_failed (py "bad key"); warning_webhook_url_not_set],
     bot_run (py "token") None).
Proof. repeat split. Qed.
